(** * Verification of the deployment endpoint [api/deploy.js]

    The repository holds two variants of the serverless function
    [api/deploy.js]: one that polls the hosting platform until the
    deployment is ready (credential [DAWG_TOKEN]) and one that answers at
    once (credential [VERCEL_TOKEN]).  Both are embedded here, the first
    in module [Polling], the second in module [Immediate]; what they
    share (JavaScript strings and values, the name sanitizer, the effects
    of [fetch] and [setTimeout]) comes first.  The definitions make up
    the first half of the file, the lemmas and theorems the second. *)

From Stdlib Require Import List NArith ZArith Bool Arith Lia String Ascii.
From Stdlib Require Import DecimalString.
Import ListNotations.

Set Implicit Arguments.

(** ** JavaScript strings

    A JavaScript string is a sequence of UTF-16 code units.  A code unit
    is kept as a number in [N]; string literals of the source that are
    plain ASCII are written [js "..."]. *)

Definition codeunit := N.
Definition jsstring := list codeunit.

Definition js (s : string) : jsstring :=
  map N_of_ascii (list_ascii_of_string s).

Definition dash : codeunit := 45%N.

(** Every code unit fits 16 bits. *)
Definition wellFormed (s : jsstring) : Prop :=
  Forall (fun c => (c < 65536)%N) s.

Fixpoint jsstring_eqb (a b : jsstring) : bool :=
  match a, b with
  | [], [] => true
  | x :: a', y :: b' => (x =? y)%N && jsstring_eqb a' b'
  | _, _ => false
  end.

(** [String.prototype.substring(start, end)] on natural arguments; the
    two indices are swapped when [start > end]. *)
Definition substring (start stop : nat) (s : jsstring) : jsstring :=
  let lo := Nat.min start stop in
  let hi := Nat.max start stop in
  firstn (hi - lo) (skipn lo s).

Fixpoint startsWith (prefix s : jsstring) : bool :=
  match prefix, s with
  | [], _ => true
  | p :: prefix', c :: s' => (p =? c)%N && startsWith prefix' s'
  | _ :: _, [] => false
  end.

(** [String.prototype.includes]. *)
Fixpoint includes (s needle : jsstring) : bool :=
  startsWith needle s
  || match s with
     | [] => false
     | _ :: rest => includes rest needle
     end.

(** The case mapping of ASCII: [A]..[Z] go to [a]..[z], every other code
    unit is kept.  On a string of ASCII code units this is what
    [String.prototype.toLowerCase] computes. *)
Definition lowerAscii (c : codeunit) : codeunit :=
  if ((65 <=? c) && (c <=? 90))%N then (c + 32)%N else c.

Definition toLowerCaseAscii (s : jsstring) : jsstring := map lowerAscii s.

(** A number in a template literal: its decimal digits. *)
Definition decimal (n : N) : jsstring :=
  js (NilEmpty.string_of_uint (N.to_uint n)).

(** ** JavaScript values

    The values the function reads from the request, from the process
    environment and from the platform's JSON are taken to be strings,
    [undefined] (also: an absent property) or [null]; numbers, booleans
    and nested objects in these places are outside the model. *)

Inductive JsVal : Type :=
| undefined
| null
| Str (s : jsstring).

(** Truthiness, as tested by [if (v)], [!v] and [v || w]. *)
Definition truthy (v : JsVal) : bool :=
  match v with
  | Str (_ :: _) => true
  | _ => false
  end.

(** [v || fallback] where the fallback is a string. *)
Definition orString (v : JsVal) (fallback : jsstring) : jsstring :=
  match v with
  | Str (c :: s) => c :: s
  | _ => fallback
  end.

(** A value inside a template literal. *)
Definition template (v : JsVal) : jsstring :=
  match v with
  | undefined => js "undefined"
  | null => js "null"
  | Str s => s
  end.

(** [v === 'literal']. *)
Definition strictEq (v : JsVal) (literal : jsstring) : bool :=
  match v with
  | Str s => jsstring_eqb s literal
  | _ => false
  end.

(** An [Error] object; only its [message] is ever read. *)
Record Error : Type := mkError { message : jsstring }.

(** How an evaluation ends: with a value, or with a thrown error (for a
    promise: resolved or rejected). *)
Inductive Completion (A : Type) : Type :=
| Normal (a : A)
| Throw (e : Error).
Arguments Throw {A} e.

(** The objects of the platform, reduced to the properties the function
    reads.  A JSON number, string, boolean or array in the place of an
    object behaves as an object without any of them. *)
Record Obj : Type := mkObj {
  id : JsVal;
  name : JsVal;
  url : JsVal;
  readyState : JsVal;
  errorMessage : JsVal
}.

Inductive Json : Type :=
| JsonNull
| JsonObj (o : Obj).

(** Reading property [key] of a parsed body: [null] has no properties,
    the engine throws a [TypeError] (message of V8). *)
Definition prop (field : Obj -> JsVal) (key : string) (j : Json)
  : Completion JsVal :=
  match j with
  | JsonNull =>
      Throw (mkError (js "Cannot read properties of null (reading '"
                        ++ js key ++ js "')"))
  | JsonObj o => Normal (field o)
  end.

(** ** [Buffer.from(text).toString('base64')] *)

Definition isHighSurrogate (c : codeunit) : bool :=
  ((55296 <=? c) && (c <=? 56319))%N.
Definition isLowSurrogate (c : codeunit) : bool :=
  ((56320 <=? c) && (c <=? 57343))%N.

(** U+FFFD, written for an unpaired surrogate. *)
Definition replacementBytes : list N := [239; 191; 189]%N.

(** [Buffer.from(string)]: the UTF-8 bytes of the string. *)
Fixpoint utf8 (s : jsstring) : list N :=
  match s with
  | [] => []
  | c :: rest =>
      if (c <? 128)%N then c :: utf8 rest
      else if (c <? 2048)%N then
        (192 + c / 64)%N :: (128 + c mod 64)%N :: utf8 rest
      else if isHighSurrogate c then
        match rest with
        | d :: rest' =>
            if isLowSurrogate d then
              let cp := (65536 + (c - 55296) * 1024 + (d - 56320))%N in
              (240 + cp / 262144)%N :: (128 + (cp / 4096) mod 64)%N
                :: (128 + (cp / 64) mod 64)%N :: (128 + cp mod 64)%N
                :: utf8 rest'
            else replacementBytes ++ utf8 rest
        | [] => replacementBytes
        end
      else if isLowSurrogate c then replacementBytes ++ utf8 rest
      else
        (224 + c / 4096)%N :: (128 + (c / 64) mod 64)%N
          :: (128 + c mod 64)%N :: utf8 rest
  end.

Definition base64Alphabet : jsstring :=
  js "ABCDEFGHIJKLMNOPQRSTUVWXYZabcdefghijklmnopqrstuvwxyz0123456789+/".

Definition sextetChar (n : N) : codeunit :=
  nth (N.to_nat n) base64Alphabet 0%N.

Definition padChar : codeunit := 61%N.

(** [buffer.toString('base64')]: three bytes give four characters, the
    last group is padded with [=]. *)
Fixpoint base64 (bytes : list N) : jsstring :=
  match bytes with
  | [] => []
  | [a] =>
      [sextetChar (a / 4); sextetChar ((a mod 4) * 16); padChar; padChar]
  | [a; b] =>
      [sextetChar (a / 4); sextetChar ((a mod 4) * 16 + b / 16);
       sextetChar ((b mod 16) * 4); padChar]
  | a :: b :: c :: rest =>
      sextetChar (a / 4) :: sextetChar ((a mod 4) * 16 + b / 16)
        :: sextetChar ((b mod 16) * 4 + c / 64) :: sextetChar (c mod 64)
        :: base64 rest
  end%N.

(** The inverse direction, used to state that [base64] loses nothing. *)
Fixpoint indexOf (c : codeunit) (s : jsstring) (i : N) : option N :=
  match s with
  | [] => None
  | x :: rest => if (x =? c)%N then Some i else indexOf c rest (i + 1)%N
  end.

Definition charSextet (c : codeunit) : option N := indexOf c base64Alphabet 0%N.

Fixpoint base64Decode (s : jsstring) : option (list N) :=
  match s with
  | [] => Some []
  | c1 :: c2 :: c3 :: c4 :: rest =>
      match charSextet c1, charSextet c2 with
      | Some s1, Some s2 =>
          let b1 := (s1 * 4 + s2 / 16)%N in
          if (c3 =? padChar)%N then
            if (c4 =? padChar)%N
            then match rest with [] => Some [b1] | _ => None end
            else None
          else
            match charSextet c3 with
            | Some s3 =>
                let b2 := ((s2 mod 16) * 16 + s3 / 4)%N in
                if (c4 =? padChar)%N
                then match rest with [] => Some [b1; b2] | _ => None end
                else
                  match charSextet c4, base64Decode rest with
                  | Some s4, Some tail =>
                      Some (b1 :: b2 :: ((s3 mod 4) * 64 + s4)%N :: tail)
                  | _, _ => None
                  end
            | None => None
            end
      | _, _ => None
      end
  | _ => None
  end.

(** Text of the HTML templates: a backquote in the literal stands for
    the double quote of the source. *)
Definition tpl (s : string) : jsstring :=
  map (fun c => if (c =? 96)%N then 34%N else c) (js s).

Definition nl : jsstring := [10%N].
(** The rocket emoji U+1F680 (a surrogate pair) and the check mark
    U+2705 of the pages. *)
Definition rocket : jsstring := [55357; 56960]%N.
Definition checkMark : jsstring := [9989%N].

(** ** The name sanitizer

    Both variants of [handler] compute
<<
    projectName.toLowerCase()
      .replace(/[^a-z0-9-]/g, '-')
      .replace(/-+/g, '-')
      .substring(0, 50)
>>
    The regular expressions have no [u] flag, so they work on code
    units. *)

(** The character class [[a-z0-9-]]. *)
Definition inClass (c : codeunit) : bool :=
  ((97 <=? c) && (c <=? 122) || (48 <=? c) && (c <=? 57) || (c =? 45))%N.

(** [.replace(/[^a-z0-9-]/g, '-')]: every code unit outside the class
    becomes a dash. *)
Definition replaceInvalid (s : jsstring) : jsstring :=
  map (fun c => if inClass c then c else dash) s.

(** [.replace(/-+/g, '-')]: scanning from the left, each maximal run of
    dashes is matched once and replaced by one dash.  [inRun] tells that
    the scan is inside a run whose replacement was already emitted. *)
Fixpoint collapseFrom (inRun : bool) (s : jsstring) : jsstring :=
  match s with
  | [] => []
  | c :: rest =>
      if (c =? dash)%N
      then (if inRun then collapseFrom true rest
            else dash :: collapseFrom true rest)
      else c :: collapseFrom false rest
  end.

Definition collapseDashes (s : jsstring) : jsstring := collapseFrom false s.

Section Sanitizer.

(** [String.prototype.toLowerCase] follows the Unicode default case
    conversion, which is not reproduced here: the sanitizer is stated
    over any such function, and [toLowerCaseAscii] is the instance for
    ASCII input. *)
Variable toLowerCase : jsstring -> jsstring.

Definition cleanProjectName (projectName : jsstring) : jsstring :=
  substring 0 50 (collapseDashes (replaceInvalid (toLowerCase projectName))).

End Sanitizer.

(** No two neighbouring code units of [s] are both dashes. *)
Definition noDoubleDash (s : jsstring) : Prop :=
  forall pre post, s <> pre ++ dash :: dash :: post.

(** White space in the sense of [String.prototype.trim], restricted to
    ASCII: tab, line feed, vertical tab, form feed, carriage return and
    space.  The source never trims; [blank] only serves to state what
    the source does on names that are empty after trimming. *)
Definition isSpace (c : codeunit) : bool :=
  ((9 <=? c) && (c <=? 13) || (c =? 32))%N.

Definition blank (s : jsstring) : bool := forallb isSpace s.

(** ** Requests to the platform and their effects *)

Inductive Method : Type := GET | POST.

Record FileEntry : Type := mkFile {
  file : jsstring;
  data : jsstring;
  encoding : jsstring
}.

(** The object given to [JSON.stringify] for [POST /v9/projects].  A
    property that the source does not write is [undefined]. *)
Module Project.
Record Payload : Type := mk {
  name : jsstring;
  framework : jsstring;
  buildCommand : JsVal;
  outputDirectory : JsVal;
  installCommand : JsVal
}.
End Project.

(** The object given to [JSON.stringify] for [POST /v13/deployments]. *)
Module Deployment.
Record Payload : Type := mk {
  name : JsVal;
  project : JsVal;
  target : jsstring;
  files : list FileEntry;
  framework : jsstring;
  buildCommand : JsVal;
  outputDirectory : JsVal;
  installCommand : JsVal
}.
End Deployment.

Inductive Body : Type :=
| ProjectBody (p : Project.Payload)
| DeploymentBody (p : Deployment.Payload).

(** The arguments of one call of [fetch]. *)
Record FetchRequest : Type := mkFetch {
  reqUrl : jsstring;
  reqMethod : Method;
  authorization : jsstring;
  contentType : option jsstring;
  reqBody : option Body
}.

(** What [fetch] resolves to: the status, the body as text and the
    outcome of [response.json()], which rejects on a body that is not
    JSON. *)
Record Response : Type := mkResponse {
  status : N;
  text : jsstring;
  json : Completion Json
}.

(** [response.ok] *)
Definition ok (r : Response) : bool :=
  ((200 <=? status r) && (status r <=? 299))%N.

(** What the function did to the outside, oldest first. *)
Inductive Event : Type :=
| Fetched (request : FetchRequest)
| Slept (milliseconds : N).

Definition Trace := list Event.

(** The platform and the network: what a call of [fetch] yields, given
    all that happened before.  [Throw] is a rejected promise (no
    connection). *)
Definition Platform := Trace -> FetchRequest -> Completion Response.

(** A computation with effects: it extends the trace and ends like a
    JavaScript evaluation. *)
Definition Eff (A : Type) : Type := Trace -> Completion A * Trace.

Definition ret {A : Type} (a : A) : Eff A := fun t => (Normal a, t).

Definition throw {A : Type} (e : Error) : Eff A := fun t => (Throw e, t).

Definition bind {A B : Type} (m : Eff A) (k : A -> Eff B) : Eff B :=
  fun t =>
    match m t with
    | (Normal a, t') => k a t'
    | (Throw e, t') => (Throw e, t')
    end.

(** [try { m } catch (error) { handler error }] *)
Definition tryCatch {A : Type} (m : Eff A) (handler : Error -> Eff A) : Eff A :=
  fun t =>
    match m t with
    | (Normal a, t') => (Normal a, t')
    | (Throw e, t') => handler e t'
    end.

(** An evaluation without effects, such as a property read. *)
Definition lift {A : Type} (c : Completion A) : Eff A := fun t => (c, t).

Definition fetch (platform : Platform) (request : FetchRequest) : Eff Response :=
  fun t => (platform t request, t ++ [Fetched request]).

(** [await new Promise(resolve => setTimeout(resolve, ms))] *)
Definition sleep (ms : N) : Eff unit :=
  fun t => (Normal tt, t ++ [Slept ms]).

Declare Scope eff_scope.
Delimit Scope eff_scope with eff.
Notation "x <- m ;; k" := (bind m (fun x => k))
  (at level 61, m at next level, right associativity) : eff_scope.
Notation "m ;; k" := (bind m (fun _ => k))
  (at level 61, right associativity) : eff_scope.

(** How many calls of [fetch] and how many delays a trace holds. *)
Definition fetchCount (t : Trace) : nat :=
  List.length (filter (fun ev => match ev with Fetched _ => true | Slept _ => false end) t).

Definition sleepCount (t : Trace) : nat :=
  List.length (filter (fun ev => match ev with Slept _ => true | Fetched _ => false end) t).

(** ** The request and the response of [handler] *)

(** [req.body] after parsing. *)
Record ReqBody : Type := mkBody {
  projectName : JsVal;
  siteName : JsVal
}.

(** [req]: the method, the header [content-type] and the body, which is
    [undefined] ([None]) when nothing parsed it. *)
Record Req : Type := mkReq {
  method : jsstring;
  contentTypeHeader : JsVal;
  body : option ReqBody
}.

(** The JSON written by [res.json] (or nothing, for [res.end()]). *)
Inductive ResBody : Type :=
| NoBody
| ErrorOnly (error : jsstring)
| Failure (error : jsstring)
| Success (url : jsstring) (projectId deploymentId : JsVal)
          (projectName siteName : jsstring).

Record Res : Type := mkRes {
  statusCode : N;
  resBody : ResBody
}.

(** The uniform shapes [{success: true, ...}] and
    [{success: false, error}]. *)
Definition shaped (b : ResBody) : Prop :=
  match b with
  | Failure _ | Success _ _ _ _ _ => True
  | NoBody | ErrorOnly _ => False
  end.

(** Destructuring [req.body] (message of V8 when it is [undefined]). *)
Definition destructure (b : option ReqBody) : Completion ReqBody :=
  match b with
  | Some fields => Normal fields
  | None =>
      Throw (mkError (js "Cannot destructure property 'projectName' of 'req.body' as it is undefined."))
  end.

(** One step of the body of a loop: go on with the next round, or
    leave the function with a value. *)
Inductive LoopStep : Type :=
| Continue
| Return (value : jsstring).

(** ** The variant that waits for the deployment *)

Module Polling.
Section Polling.

(** [String.prototype.toLowerCase] of the runtime. *)
Variable toLowerCase : jsstring -> jsstring.
(** [process.env.DAWG_TOKEN]: a string, or [undefined]. *)
Variable DAWG_TOKEN : JsVal.
Variable platform : Platform.
(** [new Date().toLocaleString('id-ID')] at the time of the call. *)
Variable date : jsstring.

Local Open Scope eff_scope.

Definition bearer : jsstring := js "Bearer " ++ template DAWG_TOKEN.

Definition createProjectRequest (projectName : jsstring) : FetchRequest :=
  {| reqUrl := js "https://api.vercel.com/v9/projects";
     reqMethod := POST;
     authorization := bearer;
     contentType := Some (js "application/json");
     reqBody := Some (ProjectBody
       {| Project.name := projectName;
          Project.framework := js "static";
          Project.buildCommand := null;
          Project.outputDirectory := null;
          Project.installCommand := null |}) |}.

Definition getProjectRequest (projectName : jsstring) : FetchRequest :=
  {| reqUrl := js "https://api.vercel.com/v9/projects/" ++ projectName;
     reqMethod := GET;
     authorization := bearer;
     contentType := None;
     reqBody := None |}.

(** Create or get existing project. *)
Definition createOrGetProject (projectName : jsstring) : Eff Json :=
  tryCatch
    (createResponse <- fetch platform (createProjectRequest projectName) ;;
     let failed : Eff Json :=
       let errorText := text createResponse in
       throw (mkError (js "Failed to create/get project: "
                         ++ decimal (status createResponse)
                         ++ js " - " ++ errorText)) in
     if ok createResponse then lift (json createResponse)
     else if (status createResponse =? 409)%N then
       getResponse <- fetch platform (getProjectRequest projectName) ;;
       if ok getResponse then lift (json getResponse) else failed
     else failed)
    (fun error =>
       throw (mkError (js "Project handling failed: " ++ message error))).

(** The page that is deployed. *)
Definition htmlContent (siteName : jsstring) (projectName : JsVal) : jsstring :=
  nl ++
  tpl "<!DOCTYPE html>" ++ nl ++
  tpl "<html lang=`id`>" ++ nl ++
  tpl "<head>" ++ nl ++
  tpl "    <meta charset=`UTF-8`>" ++ nl ++
  tpl "    <meta name=`viewport` content=`width=device-width, initial-scale=1.0`>" ++ nl ++
  tpl "    <title>" ++ siteName ++ tpl "</title>" ++ nl ++
  tpl "    <style>" ++ nl ++
  tpl "        * { margin: 0; padding: 0; box-sizing: border-box; }" ++ nl ++
  tpl "        body { " ++ nl ++
  tpl "            font-family: 'Segoe UI', Tahoma, Geneva, Verdana, sans-serif;" ++ nl ++
  tpl "            background: linear-gradient(135deg, #667eea 0%, #764ba2 100%);" ++ nl ++
  tpl "            min-height: 100vh;" ++ nl ++
  tpl "            display: flex;" ++ nl ++
  tpl "            align-items: center;" ++ nl ++
  tpl "            justify-content: center;" ++ nl ++
  tpl "            color: white;" ++ nl ++
  tpl "            text-align: center;" ++ nl ++
  tpl "            padding: 20px;" ++ nl ++
  tpl "        }" ++ nl ++
  tpl "        .container {" ++ nl ++
  tpl "            background: rgba(255,255,255,0.1);" ++ nl ++
  tpl "            backdrop-filter: blur(10px);" ++ nl ++
  tpl "            padding: 50px;" ++ nl ++
  tpl "            border-radius: 20px;" ++ nl ++
  tpl "            box-shadow: 0 20px 40px rgba(0,0,0,0.1);" ++ nl ++
  tpl "            max-width: 600px;" ++ nl ++
  tpl "        }" ++ nl ++
  tpl "        h1 { " ++ nl ++
  tpl "            font-size: 3em; " ++ nl ++
  tpl "            margin-bottom: 20px;" ++ nl ++
  tpl "            background: linear-gradient(135deg, #fff, #e2e8f0);" ++ nl ++
  tpl "            -webkit-background-clip: text;" ++ nl ++
  tpl "            -webkit-text-fill-color: transparent;" ++ nl ++
  tpl "        }" ++ nl ++
  tpl "        p { " ++ nl ++
  tpl "            font-size: 1.3em; " ++ nl ++
  tpl "            margin-bottom: 15px;" ++ nl ++
  tpl "            opacity: 0.9;" ++ nl ++
  tpl "        }" ++ nl ++
  tpl "        .deploy-info {" ++ nl ++
  tpl "            background: rgba(255,255,255,0.2);" ++ nl ++
  tpl "            padding: 20px;" ++ nl ++
  tpl "            border-radius: 10px;" ++ nl ++
  tpl "            margin-top: 30px;" ++ nl ++
  tpl "        }" ++ nl ++
  tpl "    </style>" ++ nl ++
  tpl "</head>" ++ nl ++
  tpl "<body>" ++ nl ++
  tpl "    <div class=`container`>" ++ nl ++
  tpl "        <h1>" ++ rocket ++ tpl " " ++ siteName ++ tpl "</h1>" ++ nl ++
  tpl "        <p>Selamat! Website Anda berhasil di-deploy!</p>" ++ nl ++
  tpl "        <p>Dibuat dengan <strong>Vercel Instant Deployer</strong></p>" ++ nl ++
  tpl "        " ++ nl ++
  tpl "        <div class=`deploy-info`>" ++ nl ++
  tpl "            <p><strong>Project:</strong> " ++ template projectName ++ tpl "</p>" ++ nl ++
  tpl "            <p><strong>Deployment Date:</strong> " ++ date ++ tpl "</p>" ++ nl ++
  tpl "            <p><strong>Status:</strong> " ++ checkMark ++ tpl " Live & Ready</p>" ++ nl ++
  tpl "        </div>" ++ nl ++
  tpl "        " ++ nl ++
  tpl "        <p style=`margin-top: 30px; font-size: 1em; opacity: 0.7;`>" ++ nl ++
  tpl "            Upload file HTML, CSS, dan JS Anda melalui Vercel Instant Deployer untuk mengganti halaman ini." ++ nl ++
  tpl "        </p>" ++ nl ++
  tpl "    </div>" ++ nl ++
  tpl "</body>" ++ nl ++
  tpl "</html>" ++ nl ++
  tpl "    ".

Definition deploymentPayload (projectName projectId : JsVal)
    (siteName : jsstring) : Deployment.Payload :=
  {| Deployment.name := projectName;
     Deployment.project := projectId;
     Deployment.target := js "production";
     Deployment.files :=
       [ {| file := js "index.html";
            data := base64 (utf8 (htmlContent siteName projectName));
            encoding := js "base64" |} ];
     Deployment.framework := js "static";
     Deployment.buildCommand := null;
     Deployment.outputDirectory := null;
     Deployment.installCommand := null |}.

Definition createDeploymentRequest (payload : Deployment.Payload)
  : FetchRequest :=
  {| reqUrl := js "https://api.vercel.com/v13/deployments";
     reqMethod := POST;
     authorization := bearer;
     contentType := Some (js "application/json");
     reqBody := Some (DeploymentBody payload) |}.

(** Create deployment.  The template literal of the page reads
    [project.name], the payload reads [project.name] and
    [project.id]; on [null] the first read throws. *)
Definition createDeployment (project : Json) (siteName : jsstring) : Eff Json :=
  tryCatch
    (projectName <- lift (prop name "name" project) ;;
     projectId <- lift (prop id "id" project) ;;
     deploymentResponse <-
       fetch platform
         (createDeploymentRequest
            (deploymentPayload projectName projectId siteName)) ;;
     if negb (ok deploymentResponse) then
       let errorText := text deploymentResponse in
       throw (mkError (js "Deployment creation failed: "
                         ++ decimal (status deploymentResponse)
                         ++ js " - " ++ errorText))
     else lift (json deploymentResponse))
    (fun error =>
       throw (mkError (js "Deployment failed: " ++ message error))).

Definition statusRequest (deploymentId : JsVal) : FetchRequest :=
  {| reqUrl := js "https://api.vercel.com/v13/deployments/" ++ template deploymentId;
     reqMethod := GET;
     authorization := bearer;
     contentType := None;
     reqBody := None |}.

(** The [try] block of one round of the loop. *)
Definition pollOnce (deploymentId : JsVal) : Eff LoopStep :=
  statusResponse <- fetch platform (statusRequest deploymentId) ;;
  if negb (ok statusResponse) then ret Continue
  else
    deployment <- lift (json statusResponse) ;;
    state <- lift (prop readyState "readyState" deployment) ;;
    if strictEq state (js "READY") then
      deploymentUrl <- lift (prop url "url" deployment) ;;
      ret (Return (js "https://" ++ template deploymentUrl))
    else if strictEq state (js "ERROR") then
      reason <- lift (prop errorMessage "errorMessage" deployment) ;;
      throw (mkError (js "Deployment failed: "
                        ++ orString reason (js "Unknown error")))
    else if strictEq state (js "CANCELED") then
      throw (mkError (js "Deployment was canceled"))
    else
      sleep 2000 ;;
      ret Continue.

(** The [catch] block of one round. *)
Definition pollCatch (deploymentUrl : JsVal) (attempt maxAttempts : nat)
    (error : Error) : Eff LoopStep :=
  if attempt =? maxAttempts then
    if truthy deploymentUrl
    then ret (Return (js "https://" ++ template deploymentUrl))
    else throw (mkError (js "Deployment timeout: " ++ message error))
  else ret Continue.

(** [for (let attempt = 1; attempt <= maxAttempts; attempt++)], with
    [remaining] rounds to go: the round being run has number
    [maxAttempts - remaining + 1]. *)
Fixpoint pollLoop (deploymentId deploymentUrl : JsVal)
    (maxAttempts remaining : nat) : Eff jsstring :=
  match remaining with
  | O => throw (mkError (js "Deployment timeout: Maximum attempts reached"))
  | S later =>
      let attempt := maxAttempts - later in
      step <- tryCatch (pollOnce deploymentId)
                       (pollCatch deploymentUrl attempt maxAttempts) ;;
      match step with
      | Return value => ret value
      | Continue => pollLoop deploymentId deploymentUrl maxAttempts later
      end
  end.

(** Wait for deployment to be ready. *)
Definition waitForDeploymentReady (deploymentId deploymentUrl : JsVal)
    (maxAttempts : nat) : Eff jsstring :=
  pollLoop deploymentId deploymentUrl maxAttempts maxAttempts.

(** The [try] block of [handler]. *)
Definition handlerTry (req : Req) : Eff Res :=
  if negb (truthy DAWG_TOKEN) then
    throw (mkError (js "DAWG_TOKEN environment variable is not set. Please add your Vercel token in environment variables."))
  else
    let contentType := orString (contentTypeHeader req) [] in
    if negb (includes contentType (js "multipart/form-data")) then
      throw (mkError (js "Content-Type must be multipart/form-data"))
    else
      fields <- lift (destructure (body req)) ;;
      match projectName fields with
      | Str (c :: s) =>
          let cleanProjectName := cleanProjectName toLowerCase (c :: s) in
          project <- createOrGetProject cleanProjectName ;;
          (* console.log reads project.name and project.id *)
          _ <- lift (prop name "name" project) ;;
          _ <- lift (prop id "id" project) ;;
          let site := orString (siteName fields) cleanProjectName in
          deployment <- createDeployment project site ;;
          (* console.log reads deployment.url *)
          _ <- lift (prop url "url" deployment) ;;
          deploymentId <- lift (prop id "id" deployment) ;;
          deploymentUrl <- lift (prop url "url" deployment) ;;
          finalUrl <- waitForDeploymentReady deploymentId deploymentUrl 30 ;;
          projectId <- lift (prop id "id" project) ;;
          ret {| statusCode := 200;
                 resBody := Success finalUrl projectId deploymentId
                                    cleanProjectName site |}
      | _ =>
          ret {| statusCode := 400;
                 resBody := Failure (js "Project name is required") |}
      end.

(** [export default async function handler(req, res)]: the response
    written to [res], and the trace of the run. *)
Definition handler (req : Req) (t : Trace) : Res * Trace :=
  if jsstring_eqb (method req) (js "OPTIONS") then
    ({| statusCode := 200; resBody := NoBody |}, t)
  else if negb (jsstring_eqb (method req) (js "POST")) then
    ({| statusCode := 405; resBody := ErrorOnly (js "Method not allowed") |}, t)
  else
    match handlerTry req t with
    | (Normal res, t') => (res, t')
    | (Throw error, t') =>
        ({| statusCode := 500;
            resBody := Failure (orString (Str (message error))
                                  (js "Unknown deployment error occurred")) |},
         t')
    end.

End Polling.
End Polling.

(** ** The variant that answers at once *)

Module Immediate.
Section Immediate.

Variable toLowerCase : jsstring -> jsstring.
(** [process.env.VERCEL_TOKEN]: a string, or [undefined]. *)
Variable VERCEL_TOKEN : JsVal.
Variable platform : Platform.
Variable date : jsstring.

Local Open Scope eff_scope.

Definition bearer : jsstring := js "Bearer " ++ template VERCEL_TOKEN.

Definition createProjectRequest (projectName : jsstring) : FetchRequest :=
  {| reqUrl := js "https://api.vercel.com/v9/projects";
     reqMethod := POST;
     authorization := bearer;
     contentType := Some (js "application/json");
     reqBody := Some (ProjectBody
       {| Project.name := projectName;
          Project.framework := js "static";
          Project.buildCommand := undefined;
          Project.outputDirectory := undefined;
          Project.installCommand := undefined |}) |}.

Definition getProjectRequest (projectName : jsstring) : FetchRequest :=
  {| reqUrl := js "https://api.vercel.com/v9/projects/" ++ projectName;
     reqMethod := GET;
     authorization := bearer;
     contentType := None;
     reqBody := None |}.

Definition createOrGetProject (projectName : jsstring) : Eff Json :=
  tryCatch
    (createResponse <- fetch platform (createProjectRequest projectName) ;;
     let failed : Eff Json :=
       throw (mkError (js "Failed to create/get project: "
                         ++ decimal (status createResponse))) in
     if ok createResponse then lift (json createResponse)
     else if (status createResponse =? 409)%N then
       getResponse <- fetch platform (getProjectRequest projectName) ;;
       if ok getResponse then lift (json getResponse) else failed
     else failed)
    (fun error =>
       throw (mkError (js "Project creation failed: " ++ message error))).

Definition htmlContent (siteName : jsstring) (projectName : JsVal) : jsstring :=
  nl ++
  tpl "<!DOCTYPE html>" ++ nl ++
  tpl "<html>" ++ nl ++
  tpl "<head>" ++ nl ++
  tpl "    <title>" ++ siteName ++ tpl "</title>" ++ nl ++
  tpl "    <style>" ++ nl ++
  tpl "        body { " ++ nl ++
  tpl "            font-family: Arial, sans-serif; " ++ nl ++
  tpl "            margin: 40px; " ++ nl ++
  tpl "            background: linear-gradient(135deg, #667eea, #764ba2);" ++ nl ++
  tpl "            color: white;" ++ nl ++
  tpl "            text-align: center;" ++ nl ++
  tpl "        }" ++ nl ++
  tpl "        .container {" ++ nl ++
  tpl "            background: rgba(255,255,255,0.1);" ++ nl ++
  tpl "            padding: 40px;" ++ nl ++
  tpl "            border-radius: 15px;" ++ nl ++
  tpl "            backdrop-filter: blur(10px);" ++ nl ++
  tpl "            max-width: 600px;" ++ nl ++
  tpl "            margin: 0 auto;" ++ nl ++
  tpl "        }" ++ nl ++
  tpl "    </style>" ++ nl ++
  tpl "</head>" ++ nl ++
  tpl "<body>" ++ nl ++
  tpl "    <div class=`container`>" ++ nl ++
  tpl "        <h1>" ++ rocket ++ tpl " " ++ siteName ++ tpl "</h1>" ++ nl ++
  tpl "        <p>Successfully deployed with Vercel Instant Deployer!</p>" ++ nl ++
  tpl "        <p>Project: " ++ template projectName ++ tpl "</p>" ++ nl ++
  tpl "        <p>Deployment Date: " ++ date ++ tpl "</p>" ++ nl ++
  tpl "    </div>" ++ nl ++
  tpl "</body>" ++ nl ++
  tpl "</html>" ++ nl ++
  tpl "  ".

Definition deploymentPayload (projectName projectId : JsVal)
    (siteName : jsstring) : Deployment.Payload :=
  {| Deployment.name := projectName;
     Deployment.project := projectId;
     Deployment.target := js "production";
     Deployment.files :=
       [ {| file := js "index.html";
            data := base64 (utf8 (htmlContent siteName projectName));
            encoding := js "base64" |} ];
     Deployment.framework := js "static";
     Deployment.buildCommand := undefined;
     Deployment.outputDirectory := undefined;
     Deployment.installCommand := undefined |}.

Definition createDeploymentRequest (payload : Deployment.Payload)
  : FetchRequest :=
  {| reqUrl := js "https://api.vercel.com/v13/deployments";
     reqMethod := POST;
     authorization := bearer;
     contentType := Some (js "application/json");
     reqBody := Some (DeploymentBody payload) |}.

(** No [try] here: what is thrown leaves the function as it is. *)
Definition createDeployment (project : Json) (siteName : jsstring) : Eff Json :=
  projectName <- lift (prop name "name" project) ;;
  projectId <- lift (prop id "id" project) ;;
  deploymentResponse <-
    fetch platform
      (createDeploymentRequest
         (deploymentPayload projectName projectId siteName)) ;;
  if negb (ok deploymentResponse) then
    let errorText := text deploymentResponse in
    throw (mkError (js "Deployment failed: " ++ errorText))
  else lift (json deploymentResponse).

(** The [try] block of [handler]. *)
Definition handlerTry (req : Req) : Eff Res :=
  fields <- lift (destructure (body req)) ;;
  if negb (truthy VERCEL_TOKEN) then
    ret {| statusCode := 500;
           resBody := Failure (js "VERCEL_TOKEN environment variable is not set") |}
  else
    match projectName fields with
    | Str (c :: s) =>
        let cleanProjectName := cleanProjectName toLowerCase (c :: s) in
        project <- createOrGetProject cleanProjectName ;;
        let site := orString (siteName fields) cleanProjectName in
        deployment <- createDeployment project site ;;
        deploymentUrl <- lift (prop url "url" deployment) ;;
        let deployUrl := js "https://" ++ template deploymentUrl in
        projectId <- lift (prop id "id" project) ;;
        deploymentId <- lift (prop id "id" deployment) ;;
        ret {| statusCode := 200;
               resBody := Success deployUrl projectId deploymentId
                                  cleanProjectName site |}
    | _ =>
        ret {| statusCode := 400;
               resBody := Failure (js "Project name is required") |}
    end.

Definition handler (req : Req) (t : Trace) : Res * Trace :=
  if jsstring_eqb (method req) (js "OPTIONS") then
    ({| statusCode := 200; resBody := NoBody |}, t)
  else if negb (jsstring_eqb (method req) (js "POST")) then
    ({| statusCode := 405; resBody := ErrorOnly (js "Method not allowed") |}, t)
  else
    match handlerTry req t with
    | (Normal res, t') => (res, t')
    | (Throw error, t') =>
        ({| statusCode := 500; resBody := Failure (message error) |}, t')
    end.

End Immediate.
End Immediate.

(** ** Sample platforms and requests

    Concrete inputs on which the definitions above are run. *)

Definition member (key : string) (v : JsVal) : list jsstring :=
  match v with
  | undefined => []
  | null => [tpl "`" ++ js key ++ tpl "`:null"]
  | Str s => [tpl "`" ++ js key ++ tpl "`:`" ++ s ++ tpl "`"]
  end.

Fixpoint joinComma (parts : list jsstring) : jsstring :=
  match parts with
  | [] => []
  | [p] => p
  | p :: rest => p ++ js "," ++ joinComma rest
  end.

(** The JSON text of an object whose strings need no escaping. *)
Definition stringify (o : Obj) : jsstring :=
  js "{"
    ++ joinComma (member "id" (id o) ++ member "name" (name o)
                    ++ member "url" (url o)
                    ++ member "readyState" (readyState o)
                    ++ member "errorMessage" (errorMessage o))
    ++ js "}".

(** A response with a JSON object as body. *)
Definition replyJson (code : N) (o : Obj) : Completion Response :=
  Normal {| status := code; text := stringify o; json := Normal (JsonObj o) |}.

(** A response whose body is plain text, not JSON. *)
Definition replyText (code : N) (content : string) : Completion Response :=
  Normal {| status := code;
            text := js content;
            json := Throw (mkError (js "Unexpected token in JSON at position 0")) |}.

Definition networkDown : Completion Response :=
  Throw (mkError (js "fetch failed")).

(** A platform that answers the calls of [fetch] in order from a list,
    and is unreachable once the list is used up. *)
Definition scripted (replies : list (Completion Response)) : Platform :=
  fun t _ => nth (fetchCount t) replies networkDown.

(** A platform that gives the same answer to every call. *)
Definition always (reply : Completion Response) : Platform :=
  fun _ _ => reply.

Definition sampleProject : Obj :=
  {| id := Str (js "prj_1"); name := Str (js "my-site");
     url := undefined; readyState := undefined; errorMessage := undefined |}.

Definition sampleDeployment (state : string) (reason : JsVal) : Obj :=
  {| id := Str (js "dep1"); name := Str (js "my-site");
     url := Str (js "my-site-abc.vercel.app");
     readyState := Str (js state); errorMessage := reason |}.

Definition building : Completion Response :=
  replyJson 200 (sampleDeployment "BUILDING" undefined).
Definition ready : Completion Response :=
  replyJson 200 (sampleDeployment "READY" undefined).
Definition failedBuild : Completion Response :=
  replyJson 200 (sampleDeployment "ERROR" (Str (js "Build failed"))).

Definition sampleToken : JsVal := Str (js "secret").
Definition sampleDate : jsstring := js "2/11/2026, 10.00.00".

Definition postRequest (projectName siteName : JsVal) : Req :=
  {| method := js "POST";
     contentTypeHeader := Str (js "multipart/form-data; boundary=x");
     body := Some {| projectName := projectName; siteName := siteName |} |}.

(** A platform on which everything succeeds: the project is created,
    the deployment is queued, the first status query finds it ready. *)
Definition samplePlatform : Platform :=
  scripted [replyJson 200 sampleProject;
            replyJson 200 (sampleDeployment "QUEUED" undefined);
            ready].

(** ** Vocabulary of the statements *)

(** What a call of [fetch] yields when the platform answers with a
    2xx response whose body parses to the object [o]. *)
Definition reports (reply : Completion Response) (o : Obj) : Prop :=
  exists r, reply = Normal r /\ ok r = true /\ json r = Normal (JsonObj o).

(** A ready state that is neither [READY] nor [ERROR] nor [CANCELED]. *)
Definition pending (o : Obj) : Prop :=
  strictEq (readyState o) (js "READY") = false
  /\ strictEq (readyState o) (js "ERROR") = false
  /\ strictEq (readyState o) (js "CANCELED") = false.

(** A run of [handler] from trace [t] that ends with the answer
    [400 {success: false, error: 'Project name is required'}] and has
    called nothing. *)
Definition rejectedBeforeNetwork (run : Res * Trace) (t : Trace) : Prop :=
  fst run = {| statusCode := 400;
               resBody := Failure (js "Project name is required") |}
  /\ snd run = t.

(** The answer [{success: false, error}] with status [code]. *)
Definition failure (code : N) (error : jsstring) : Res :=
  {| statusCode := code; resBody := Failure error |}.

(** The ways in which a step of a run of the polling [handler] fails,
    with the message of the failure and the trace at that point:
    configuration check, checks of the request, project resolution,
    deployment submission, polling. *)
Inductive PollingStepFails (toLowerCase : jsstring -> jsstring)
    (DAWG_TOKEN : JsVal) (platform : Platform) (date : jsstring)
    (req : Req) (t : Trace) : jsstring -> Trace -> Prop :=
| PollingConfig :
    truthy DAWG_TOKEN = false ->
    PollingStepFails toLowerCase DAWG_TOKEN platform date req t
      (js "DAWG_TOKEN environment variable is not set. Please add your Vercel token in environment variables.") t
| PollingContentType :
    truthy DAWG_TOKEN = true ->
    includes (orString (contentTypeHeader req) []) (js "multipart/form-data") = false ->
    PollingStepFails toLowerCase DAWG_TOKEN platform date req t
      (js "Content-Type must be multipart/form-data") t
| PollingNoBody e :
    truthy DAWG_TOKEN = true ->
    includes (orString (contentTypeHeader req) []) (js "multipart/form-data") = true ->
    destructure (body req) = Throw e ->
    PollingStepFails toLowerCase DAWG_TOKEN platform date req t (message e) t
| PollingValidation fields :
    truthy DAWG_TOKEN = true ->
    includes (orString (contentTypeHeader req) []) (js "multipart/form-data") = true ->
    body req = Some fields ->
    truthy (projectName fields) = false ->
    PollingStepFails toLowerCase DAWG_TOKEN platform date req t
      (js "Project name is required") t
| PollingResolution fields c s e t1 :
    truthy DAWG_TOKEN = true ->
    includes (orString (contentTypeHeader req) []) (js "multipart/form-data") = true ->
    body req = Some fields ->
    projectName fields = Str (c :: s) ->
    Polling.createOrGetProject DAWG_TOKEN platform
      (cleanProjectName toLowerCase (c :: s)) t = (Throw e, t1) ->
    PollingStepFails toLowerCase DAWG_TOKEN platform date req t (message e) t1
| PollingSubmission fields c s project e t1 t2 :
    truthy DAWG_TOKEN = true ->
    includes (orString (contentTypeHeader req) []) (js "multipart/form-data") = true ->
    body req = Some fields ->
    projectName fields = Str (c :: s) ->
    Polling.createOrGetProject DAWG_TOKEN platform
      (cleanProjectName toLowerCase (c :: s)) t = (Normal (JsonObj project), t1) ->
    Polling.createDeployment DAWG_TOKEN platform date (JsonObj project)
      (orString (siteName fields) (cleanProjectName toLowerCase (c :: s))) t1
      = (Throw e, t2) ->
    PollingStepFails toLowerCase DAWG_TOKEN platform date req t (message e) t2
| PollingWait fields c s project deployment e t1 t2 t3 :
    truthy DAWG_TOKEN = true ->
    includes (orString (contentTypeHeader req) []) (js "multipart/form-data") = true ->
    body req = Some fields ->
    projectName fields = Str (c :: s) ->
    Polling.createOrGetProject DAWG_TOKEN platform
      (cleanProjectName toLowerCase (c :: s)) t = (Normal (JsonObj project), t1) ->
    Polling.createDeployment DAWG_TOKEN platform date (JsonObj project)
      (orString (siteName fields) (cleanProjectName toLowerCase (c :: s))) t1
      = (Normal (JsonObj deployment), t2) ->
    Polling.waitForDeploymentReady DAWG_TOKEN platform
      (id deployment) (url deployment) 30 t2 = (Throw e, t3) ->
    PollingStepFails toLowerCase DAWG_TOKEN platform date req t (message e) t3.

(** The same for the variant that answers at once, which has no
    content-type check and no polling. *)
Inductive ImmediateStepFails (toLowerCase : jsstring -> jsstring)
    (VERCEL_TOKEN : JsVal) (platform : Platform) (date : jsstring)
    (req : Req) (t : Trace) : jsstring -> Trace -> Prop :=
| ImmediateNoBody e :
    destructure (body req) = Throw e ->
    ImmediateStepFails toLowerCase VERCEL_TOKEN platform date req t (message e) t
| ImmediateConfig fields :
    body req = Some fields ->
    truthy VERCEL_TOKEN = false ->
    ImmediateStepFails toLowerCase VERCEL_TOKEN platform date req t
      (js "VERCEL_TOKEN environment variable is not set") t
| ImmediateValidation fields :
    body req = Some fields ->
    truthy VERCEL_TOKEN = true ->
    truthy (projectName fields) = false ->
    ImmediateStepFails toLowerCase VERCEL_TOKEN platform date req t
      (js "Project name is required") t
| ImmediateResolution fields c s e t1 :
    body req = Some fields ->
    truthy VERCEL_TOKEN = true ->
    projectName fields = Str (c :: s) ->
    Immediate.createOrGetProject VERCEL_TOKEN platform
      (cleanProjectName toLowerCase (c :: s)) t = (Throw e, t1) ->
    ImmediateStepFails toLowerCase VERCEL_TOKEN platform date req t (message e) t1
| ImmediateSubmission fields c s project e t1 t2 :
    body req = Some fields ->
    truthy VERCEL_TOKEN = true ->
    projectName fields = Str (c :: s) ->
    Immediate.createOrGetProject VERCEL_TOKEN platform
      (cleanProjectName toLowerCase (c :: s)) t = (Normal project, t1) ->
    Immediate.createDeployment VERCEL_TOKEN platform date project
      (orString (siteName fields) (cleanProjectName toLowerCase (c :: s))) t1
      = (Throw e, t2) ->
    ImmediateStepFails toLowerCase VERCEL_TOKEN platform date req t (message e) t2.

(** Every error that computation [m] may throw has a message. *)
Definition throwsWithMessage {A : Type} (m : Eff A) : Prop :=
  forall t e t', m t = (Throw e, t') -> message e <> [].

(** Every answer that computation [m] may return is shaped. *)
Definition returnsShaped (m : Eff Res) : Prop :=
  forall t res t', m t = (Normal res, t') -> shaped (resBody res).

(** ** Vocabulary of the further properties *)

(** A name the sanitizer has nothing to do on. *)
Definition validName (s : jsstring) : Prop :=
  Forall (fun c => inClass c = true) s
  /\ noDoubleDash s
  /\ List.length s <= 50.

(** The trace of [n] rounds of the polling loop that found the
    deployment pending: a query and a delay each. *)
Fixpoint pendingRounds (query : FetchRequest) (n : nat) : Trace :=
  match n with
  | O => []
  | S k => Fetched query :: Slept 2000 :: pendingRounds query k
  end.

(** What every effect of the function looks like: a call goes to the
    API of the platform with the credential as bearer token, a delay
    lasts two seconds. *)
Definition platformEvent (token : JsVal) (ev : Event) : Prop :=
  match ev with
  | Fetched request =>
      authorization request = js "Bearer " ++ template token
      /\ startsWith (js "https://api.vercel.com/") (reqUrl request) = true
  | Slept ms => ms = 2000%N
  end.

(** A piece of trace with at most [fetches] calls and [sleeps] delays,
    all of them [good]. *)
Definition within (fetches sleeps : nat) (good : Event -> Prop)
    (added : Trace) : Prop :=
  Forall good added
  /\ fetchCount added <= fetches
  /\ sleepCount added <= sleeps.

(** Whatever the trace before, computation [m] only appends to it, and
    what it appends satisfies [Q]. *)
Definition appends {A : Type} (m : Eff A) (Q : Trace -> Prop) : Prop :=
  forall t, exists added, snd (m t) = t ++ added /\ Q added.

(** ... and what it appends is [within] the budget. *)
Definition emits {A : Type} (m : Eff A) (fetches sleeps : nat)
    (good : Event -> Prop) : Prop :=
  appends m (within fetches sleeps good).

(** A piece of trace that starts with a call for [request]. *)
Definition startsWithCall (request : FetchRequest) (added : Trace) : Prop :=
  exists rest, added = Fetched request :: rest.

(** The platform answers with response [r], whose status is not 2xx. *)
Definition refuses (reply : Completion Response) (r : Response) : Prop :=
  reply = Normal r /\ ok r = false.

(** Every answer that computation [m] may return satisfies [P]. *)
Definition returnsOnly (P : Res -> Prop) (m : Eff Res) : Prop :=
  forall t res t', m t = (Normal res, t') -> P res.

(** The status that goes with each body. *)
Definition statusFits (res : Res) : Prop :=
  match resBody res with
  | Success _ _ _ _ _ => statusCode res = 200%N
  | Failure _ => statusCode res = 400%N \/ statusCode res = 500%N
  | NoBody => statusCode res = 200%N
  | ErrorOnly _ => statusCode res = 405%N
  end.

(** * Lemmas and theorems *)

Unset Implicit Arguments.

Arguments js : simpl never.
Arguments tpl : simpl never.
Arguments decimal : simpl never.

(** ** The sanitizer *)

Lemma substring_prefix (n : nat) (s : jsstring) :
  substring 0 n s = firstn n s.
Proof.
  unfold substring. rewrite Nat.min_0_l, Nat.max_0_l, Nat.sub_0_r.
  reflexivity.
Qed.

Lemma replaceInvalid_inClass (s : jsstring) :
  Forall (fun c => inClass c = true) (replaceInvalid s).
Proof.
  induction s as [|c s IH]; simpl; constructor; auto.
  destruct (inClass c) eqn:E; [exact E | reflexivity].
Qed.

Lemma collapseFrom_inClass (b : bool) (s : jsstring) :
  Forall (fun c => inClass c = true) s ->
  Forall (fun c => inClass c = true) (collapseFrom b s).
Proof.
  intros H. revert b.
  induction H as [|c s Hc _ IH]; intros b; simpl; [constructor|].
  destruct (c =? dash)%N.
  - destruct b; [apply IH | constructor; [reflexivity | apply IH]].
  - constructor; [exact Hc | apply IH].
Qed.

Lemma Forall_firstn (A : Type) (P : A -> Prop) (n : nat) (l : list A) :
  Forall P l -> Forall P (firstn n l).
Proof.
  intros H. revert n.
  induction H; intros [|n]; simpl; constructor; auto.
Qed.

(** The head of a collapsed string is never a dash once the scan is
    inside a run. *)
Lemma collapseFrom_true_head (s : jsstring) (post : jsstring) :
  collapseFrom true s <> dash :: post.
Proof.
  induction s as [|c s IH]; simpl; [discriminate|].
  destruct (c =? dash)%N eqn:E; [exact IH|].
  intros H. injection H as H _. subst c. discriminate E.
Qed.

Lemma collapseFrom_noDoubleDash (b : bool) (s : jsstring) :
  noDoubleDash (collapseFrom b s).
Proof.
  revert b.
  induction s as [|c s IH]; intros b pre post; simpl.
  - destruct pre; discriminate.
  - destruct (c =? dash)%N eqn:E.
    + destruct b; [apply IH|].
      destruct pre as [|p pre]; simpl; intros H.
      * injection H as H. eapply collapseFrom_true_head; exact H.
      * injection H as _ H. eapply IH; exact H.
    + destruct pre as [|p pre]; simpl; intros H.
      * injection H as H _. subst c. discriminate E.
      * injection H as _ H. eapply IH; exact H.
Qed.

Lemma noDoubleDash_firstn (n : nat) (s : jsstring) :
  noDoubleDash s -> noDoubleDash (firstn n s).
Proof.
  intros H pre post E.
  apply (H pre (post ++ skipn n s)).
  rewrite <- (firstn_skipn n s) at 1. rewrite E.
  rewrite <- app_assoc. reflexivity.
Qed.

Lemma collapseFrom_false_nil (s : jsstring) :
  collapseFrom false s = [] -> s = [].
Proof.
  destruct s as [|c s]; simpl; [reflexivity|].
  destruct (c =? dash)%N; discriminate.
Qed.

Lemma replaceInvalid_nil (s : jsstring) :
  replaceInvalid s = [] -> s = [].
Proof. destruct s; [reflexivity | discriminate]. Qed.

Lemma firstn_S_nil (A : Type) (n : nat) (l : list A) :
  firstn (S n) l = [] -> l = [].
Proof. destruct l; [reflexivity | discriminate]. Qed.

Lemma cleanProjectName_nil (lc : jsstring -> jsstring) (raw : jsstring) :
  cleanProjectName lc raw = [] <-> lc raw = [].
Proof.
  unfold cleanProjectName, collapseDashes. rewrite substring_prefix.
  split.
  - intros H. apply firstn_S_nil in H.
    apply collapseFrom_false_nil in H.
    apply replaceInvalid_nil in H. exact H.
  - intros ->. reflexivity.
Qed.

(** A string made of invalid code units only turns into a run of
    dashes, which collapses to one dash. *)
Lemma collapse_all_invalid (b : bool) (s : jsstring) :
  Forall (fun c => inClass c = false) s ->
  collapseFrom b (replaceInvalid s)
  = if b then [] else match s with [] => [] | _ :: _ => [dash] end.
Proof.
  intros H. revert b.
  induction H as [|c s Hc _ IH]; intros b; simpl.
  - destruct b; reflexivity.
  - rewrite Hc. simpl. destruct b; rewrite IH; reflexivity.
Qed.

(** C4. For every raw input string, the sanitized name consists only of
    characters in [a-z0-9-], has length at most 50, and contains no two
    consecutive dashes; the algorithm is lowercase, then replacement of
    invalid characters by a dash, then collapse of dash runs, then
    truncation to 50, in that order.  This holds whatever the case
    conversion of the runtime is. *)
Theorem cleanProjectName_shape :
  forall (toLowerCase : jsstring -> jsstring) (raw : jsstring),
    Forall (fun c => inClass c = true) (cleanProjectName toLowerCase raw)
    /\ List.length (cleanProjectName toLowerCase raw) <= 50
    /\ noDoubleDash (cleanProjectName toLowerCase raw)
    /\ cleanProjectName toLowerCase raw
       = firstn 50 (collapseDashes (replaceInvalid (toLowerCase raw))).
Proof.
  intros lc raw. unfold cleanProjectName. rewrite substring_prefix.
  repeat split.
  - apply Forall_firstn, collapseFrom_inClass, replaceInvalid_inClass.
  - apply firstn_le_length.
  - apply noDoubleDash_firstn, collapseFrom_noDoubleDash.
Qed.

(** C5. Sanitizing ["My Cool Site!!!"] yields exactly ["my-cool-site-"],
    through the lowercase form ["my cool site!!!"], the replaced form
    ["my-cool-site---"] and the collapsed form ["my-cool-site-"]. *)
Theorem cleanProjectName_my_cool_site :
  toLowerCaseAscii (js "My Cool Site!!!") = js "my cool site!!!"
  /\ replaceInvalid (js "my cool site!!!") = js "my-cool-site---"
  /\ collapseDashes (js "my-cool-site---") = js "my-cool-site-"
  /\ substring 0 50 (js "my-cool-site-") = js "my-cool-site-"
  /\ cleanProjectName toLowerCaseAscii (js "My Cool Site!!!")
     = js "my-cool-site-".
Proof. repeat split; vm_compute; reflexivity. Qed.

(** C10, as the claim has it, fails: the one-letter name ["A"] holds no
    character of [a-z0-9-], and its sanitized form is ["a"], not ["-"]. *)
Lemma uppercase_name_is_kept :
  ~ (Forall (fun c => inClass c = false) (js "A") ->
     cleanProjectName toLowerCaseAscii (js "A") = [dash]).
Proof.
  intros H.
  assert (E : cleanProjectName toLowerCaseAscii (js "A") = [dash]).
  { apply H. repeat constructor. }
  vm_compute in E. discriminate E.
Qed.

(** C10, amended. Where the case conversion maps only the empty string
    to the empty string: a non-empty name has a non-empty sanitized
    form, the sanitized form is empty exactly when the name is, and a
    non-empty name whose lowercase form holds no character of
    [a-z0-9-] is sanitized to the single character ["-"]. *)
Theorem cleanProjectName_nonempty :
  forall (toLowerCase : jsstring -> jsstring) (raw : jsstring),
    (toLowerCase raw = [] <-> raw = []) ->
    (raw <> [] -> cleanProjectName toLowerCase raw <> [])
    /\ (cleanProjectName toLowerCase raw = [] <-> raw = [])
    /\ (raw <> [] ->
        Forall (fun c => inClass c = false) (toLowerCase raw) ->
        cleanProjectName toLowerCase raw = [dash]).
Proof.
  intros lc raw Hlc.
  assert (Hiff : cleanProjectName lc raw = [] <-> raw = []).
  { rewrite cleanProjectName_nil. exact Hlc. }
  split; [|split].
  - intros Hne Hc. apply Hne, Hiff, Hc.
  - exact Hiff.
  - intros Hne Hall.
    unfold cleanProjectName, collapseDashes.
    rewrite (collapse_all_invalid false _ Hall).
    destruct (lc raw) as [|c s] eqn:E.
    + exfalso. apply Hne, Hlc, eq_refl.
    + reflexivity.
Qed.

Lemma cleanProjectName_nonempty_witness :
  (toLowerCaseAscii (js "!!!") = [] <-> js "!!!" = [])
  /\ cleanProjectName toLowerCaseAscii (js "!!!") = [dash].
Proof.
  assert (H : toLowerCaseAscii (js "!!!") = [] <-> js "!!!" = []).
  { split; intros E; vm_compute in E; discriminate E. }
  split; [exact H|].
  apply (cleanProjectName_nonempty toLowerCaseAscii (js "!!!") H).
  - vm_compute. discriminate.
  - vm_compute. repeat constructor.
Defined.

(** ** The polling loop *)

Section PollingFacts.

Variable DAWG_TOKEN : JsVal.
Variable platform : Platform.
Variables deploymentId deploymentUrl : JsVal.

Let query := Polling.statusRequest DAWG_TOKEN deploymentId.
Let pollOnce := Polling.pollOnce DAWG_TOKEN platform deploymentId.
Let pollLoop := Polling.pollLoop DAWG_TOKEN platform deploymentId deploymentUrl.

Lemma pollOnce_pending (t : Trace) (o : Obj) :
  reports (platform t query) o -> pending o ->
  pollOnce t = (Normal Continue, t ++ [Fetched query; Slept 2000]).
Proof.
  intros (r & Hr & Hok & Hjson) (H1 & H2 & H3).
  unfold pollOnce, Polling.pollOnce, bind, fetch, lift, sleep, ret.
  fold query. rewrite Hr, Hok, Hjson. simpl.
  rewrite H1, H2, H3. rewrite <- app_assoc. reflexivity.
Qed.

Lemma pollOnce_ready (t : Trace) (o : Obj) :
  reports (platform t query) o ->
  readyState o = Str (js "READY") ->
  pollOnce t
  = (Normal (Return (js "https://" ++ template (url o))), t ++ [Fetched query]).
Proof.
  intros (r & Hr & Hok & Hjson) H1.
  unfold pollOnce, Polling.pollOnce, bind, fetch, lift, sleep, ret.
  fold query. rewrite Hr, Hok, Hjson. simpl.
  rewrite H1. reflexivity.
Qed.

Lemma pollOnce_error (t : Trace) (o : Obj) :
  reports (platform t query) o ->
  readyState o = Str (js "ERROR") ->
  pollOnce t
  = (Throw (mkError (js "Deployment failed: "
                       ++ orString (errorMessage o) (js "Unknown error"))),
     t ++ [Fetched query]).
Proof.
  intros (r & Hr & Hok & Hjson) H1.
  unfold pollOnce, Polling.pollOnce, bind, fetch, lift, sleep, ret, throw.
  fold query. rewrite Hr, Hok, Hjson. simpl.
  rewrite H1. reflexivity.
Qed.

(** One round of the loop, written out. *)
Lemma pollLoop_round (maxAttempts later : nat) (t : Trace) :
  pollLoop maxAttempts (S later) t
  = match tryCatch pollOnce
            (Polling.pollCatch deploymentUrl (maxAttempts - later) maxAttempts) t
    with
    | (Normal (Return value), t') => (Normal value, t')
    | (Normal Continue, t') => pollLoop maxAttempts later t'
    | (Throw e, t') => (Throw e, t')
    end.
Proof.
  unfold pollLoop, pollOnce. simpl. unfold bind at 1.
  destruct (tryCatch _ _ t) as [[[|value]|e] t']; reflexivity.
Qed.

(** A round in which the deployment is still pending costs one query
    and one delay, whatever its number. *)
Lemma pollLoop_pending (maxAttempts later : nat) (t : Trace) (o : Obj) :
  reports (platform t query) o -> pending o ->
  pollLoop maxAttempts (S later) t
  = pollLoop maxAttempts later (t ++ [Fetched query; Slept 2000]).
Proof.
  intros Hrep Hpen. rewrite pollLoop_round.
  unfold tryCatch. rewrite (pollOnce_pending _ _ Hrep Hpen). reflexivity.
Qed.

Lemma pollLoop_ready (maxAttempts later : nat) (t : Trace) (o : Obj) :
  reports (platform t query) o ->
  readyState o = Str (js "READY") ->
  pollLoop maxAttempts (S later) t
  = (Normal (js "https://" ++ template (url o)), t ++ [Fetched query]).
Proof.
  intros Hrep Hready. rewrite pollLoop_round.
  unfold tryCatch. rewrite (pollOnce_ready _ _ Hrep Hready). reflexivity.
Qed.

(** A round that sees [ERROR] before the last one throws, catches its
    own error and goes on with the next round, without a delay. *)
Lemma pollLoop_error_goes_on (maxAttempts later : nat) (t : Trace) (o : Obj) :
  reports (platform t query) o ->
  readyState o = Str (js "ERROR") ->
  S later < maxAttempts ->
  pollLoop maxAttempts (S (S later)) t
  = pollLoop maxAttempts (S later) (t ++ [Fetched query]).
Proof.
  intros Hrep Herr Hlt. rewrite pollLoop_round.
  unfold tryCatch. rewrite (pollOnce_error _ _ Hrep Herr).
  unfold Polling.pollCatch.
  replace (maxAttempts - S later =? maxAttempts) with false.
  - reflexivity.
  - symmetry. apply Nat.eqb_neq. lia.
Qed.

(** When every query finds the deployment pending, the loop runs out
    and throws, with or without a fallback URL. *)
Lemma pollLoop_all_pending (maxAttempts remaining : nat) (t : Trace) :
  (forall t', exists o, reports (platform t' query) o /\ pending o) ->
  fst (pollLoop maxAttempts remaining t)
  = Throw (mkError (js "Deployment timeout: Maximum attempts reached"))
  /\ fetchCount (snd (pollLoop maxAttempts remaining t))
     = fetchCount t + remaining
  /\ sleepCount (snd (pollLoop maxAttempts remaining t))
     = sleepCount t + remaining.
Proof.
  intros Hall. revert t.
  induction remaining as [|later IH]; intros t.
  - simpl. repeat split; lia.
  - destruct (Hall t) as (o & Hrep & Hpen).
    rewrite (pollLoop_pending maxAttempts later _ _ Hrep Hpen).
    destruct (IH (t ++ [Fetched query; Slept 2000])) as (E1 & E2 & E3).
    rewrite E1, E2, E3.
    unfold fetchCount, sleepCount.
    rewrite !filter_app, !length_app. simpl. repeat split; lia.
Qed.

End PollingFacts.

(** C6. When successive status queries report [BUILDING], [BUILDING],
    [READY], [waitForDeploymentReady] returns [https://] followed by the
    reported url after exactly three queries and two delays of 2000
    milliseconds, one between consecutive queries and none after the
    last. *)
Theorem waitForDeploymentReady_building_building_ready :
  forall (DAWG_TOKEN : JsVal) (platform : Platform)
         (deploymentId fallback : JsVal) (maxAttempts : nat) (t : Trace)
         (first second third : Obj),
    let query := Polling.statusRequest DAWG_TOKEN deploymentId in
    let run := Polling.waitForDeploymentReady DAWG_TOKEN platform
                 deploymentId fallback maxAttempts t in
    3 <= maxAttempts ->
    reports (platform t query) first ->
    readyState first = Str (js "BUILDING") ->
    reports (platform (t ++ [Fetched query; Slept 2000]) query) second ->
    readyState second = Str (js "BUILDING") ->
    reports (platform (t ++ [Fetched query; Slept 2000;
                             Fetched query; Slept 2000]) query) third ->
    readyState third = Str (js "READY") ->
    run = (Normal (js "https://" ++ template (url third)),
           t ++ [Fetched query; Slept 2000;
                 Fetched query; Slept 2000; Fetched query])
    /\ fetchCount (snd run) = fetchCount t + 3
    /\ sleepCount (snd run) = sleepCount t + 2.
Proof.
  intros tok platform depId fallback maxAttempts t o1 o2 o3 query run
         Hmax R1 S1 R2 S2 R3 S3.
  assert (P : forall o, readyState o = Str (js "BUILDING") -> pending o).
  { intros o H. unfold pending. rewrite H. repeat split. }
  assert (E : run = (Normal (js "https://" ++ template (url o3)),
                     t ++ [Fetched query; Slept 2000;
                           Fetched query; Slept 2000; Fetched query])).
  { subst run. unfold Polling.waitForDeploymentReady.
    destruct maxAttempts as [|[|[|later]]]; try lia.
    erewrite pollLoop_pending; [| exact R1 | apply P, S1].
    erewrite pollLoop_pending; [| exact R2 | apply P, S2].
    rewrite <- app_assoc. simpl app.
    erewrite pollLoop_ready; [| exact R3 | exact S3].
    rewrite <- app_assoc. reflexivity. }
  rewrite E. simpl snd. unfold fetchCount, sleepCount.
  rewrite !filter_app, !length_app. simpl. repeat split; lia.
Qed.

Lemma waitForDeploymentReady_building_building_ready_witness :
  Polling.waitForDeploymentReady sampleToken
    (scripted [building; building; ready])
    (Str (js "dep1")) (Str (js "my-site-abc.vercel.app")) 30 []
  = (Normal (js "https://my-site-abc.vercel.app"),
     let query := Polling.statusRequest sampleToken (Str (js "dep1")) in
     [Fetched query; Slept 2000; Fetched query; Slept 2000; Fetched query]).
Proof.
  refine (proj1 (waitForDeploymentReady_building_building_ready
            sampleToken (scripted [building; building; ready])
            (Str (js "dep1")) (Str (js "my-site-abc.vercel.app")) 30 []
            (sampleDeployment "BUILDING" undefined)
            (sampleDeployment "BUILDING" undefined)
            (sampleDeployment "READY" undefined)
            _ _ _ _ _ _ _)).
  - lia.
  - eexists. repeat split.
  - reflexivity.
  - eexists. repeat split.
  - reflexivity.
  - eexists. repeat split.
  - reflexivity.
Defined.

(** C1 on the code. The platform reports [ERROR] at the first of three
    attempts and [READY] at the second: the error thrown for [ERROR] is
    caught by the [catch] of the same round, a second query follows and
    the function returns the ready URL.  At the last attempt the same
    error yields the fallback URL when there is one, and a timeout
    error otherwise. *)
Theorem error_state_is_caught_by_the_loop :
  let wait := Polling.waitForDeploymentReady sampleToken in
  let query := Polling.statusRequest sampleToken (Str (js "dep1")) in
  wait (scripted [failedBuild; ready])
       (Str (js "dep1")) (Str (js "my-site-abc.vercel.app")) 3 []
  = (Normal (js "https://my-site-abc.vercel.app"),
     [Fetched query; Fetched query])
  /\ fst (wait (scripted [building; building; failedBuild])
               (Str (js "dep1")) (Str (js "fallback.vercel.app")) 3 [])
     = Normal (js "https://fallback.vercel.app")
  /\ fst (wait (scripted [building; building; failedBuild])
               (Str (js "dep1")) undefined 3 [])
     = Throw (mkError (js "Deployment timeout: Deployment failed: Build failed")).
Proof. repeat split; vm_compute; reflexivity. Qed.

(** C2 on the code. With three attempts that all find the deployment
    [BUILDING] and a fallback URL at hand, the function does not return
    the fallback URL: after three queries and three delays it throws
    the timeout error that follows the loop. *)
Theorem all_building_times_out_despite_fallback :
  let run := Polling.waitForDeploymentReady sampleToken (always building)
               (Str (js "dep1")) (Str (js "my-site-abc.vercel.app")) 3 [] in
  fst run = Throw (mkError (js "Deployment timeout: Maximum attempts reached"))
  /\ fetchCount (snd run) = 3
  /\ sleepCount (snd run) = 3.
Proof. repeat split; vm_compute; reflexivity. Qed.

(** ** The encoding of the page *)

Lemma list_ind3 (A : Type) (P : list A -> Prop) :
  P [] -> (forall a, P [a]) -> (forall a b, P [a; b]) ->
  (forall a b c l, P l -> P (a :: b :: c :: l)) ->
  forall l, P l.
Proof.
  intros H0 H1 H2 H3 l.
  assert (H : P l /\ (forall a, P (a :: l)) /\ (forall a b, P (a :: b :: l))).
  { induction l as [|x l (IH0 & IH1 & IH2)].
    - repeat split; auto.
    - repeat split; auto. }
  apply H.
Qed.

Lemma sextet_table :
  forallb (fun n => match charSextet (sextetChar n) with
                    | Some m => (m =? n)%N && negb (sextetChar n =? padChar)%N
                    | None => false
                    end)
          (map N.of_nat (seq 0 64)) = true.
Proof. vm_compute. reflexivity. Qed.

Lemma charSextet_sextetChar (n : N) :
  (n < 64)%N ->
  charSextet (sextetChar n) = Some n /\ (sextetChar n =? padChar)%N = false.
Proof.
  intros Hn.
  pose proof sextet_table as T. rewrite forallb_forall in T.
  specialize (T n).
  assert (Hin : In n (map N.of_nat (seq 0 64))).
  { rewrite in_map_iff. exists (N.to_nat n). split.
    - apply N2Nat.id.
    - apply in_seq. lia. }
  specialize (T Hin).
  destruct (charSextet (sextetChar n)) as [m|]; [|discriminate].
  apply andb_true_iff in T. destruct T as (Em & Ep).
  apply N.eqb_eq in Em. subst m.
  split; [reflexivity|].
  destruct (sextetChar n =? padChar)%N; [discriminate | reflexivity].
Qed.

Ltac div_lia := Zify.zify; Z.to_euclidean_division_equations; lia.

Ltac sextet c :=
  let B := fresh "B" in let E := fresh "E" in let F := fresh "F" in
  assert (B : (c < 64)%N) by div_lia;
  destruct (charSextet_sextetChar c B) as (E & F);
  rewrite ?E, ?F; clear B E F.

(** Decoding undoes encoding: no byte of the page is lost in [data]. *)
Lemma base64Decode_base64 (bytes : list N) :
  Forall (fun b => (b < 256)%N) bytes ->
  base64Decode (base64 bytes) = Some bytes.
Proof.
  induction bytes as [|a|a b|a b c rest IH] using list_ind3; intros H.
  - reflexivity.
  - inversion_clear H as [|? ? Ha _].
    cbn [base64 base64Decode].
    sextet (a / 4)%N. sextet ((a mod 4) * 16)%N.
    rewrite N.eqb_refl. do 2 f_equal.
    div_lia.
  - inversion_clear H as [|? ? Ha H']. inversion_clear H' as [|? ? Hb _].
    cbn [base64 base64Decode].
    sextet (a / 4)%N. sextet ((a mod 4) * 16 + b / 16)%N.
    sextet ((b mod 16) * 4)%N.
    rewrite N.eqb_refl. f_equal. f_equal; [|f_equal];
      div_lia.
  - inversion_clear H as [|? ? Ha H']. inversion_clear H' as [|? ? Hb H''].
    inversion_clear H'' as [|? ? Hc Hrest].
    cbn [base64 base64Decode].
    sextet (a / 4)%N. sextet ((a mod 4) * 16 + b / 16)%N.
    sextet ((b mod 16) * 4 + c / 64)%N. sextet (c mod 64)%N.
    rewrite (IH Hrest). f_equal. f_equal; [|f_equal; [|f_equal]];
      div_lia.
Qed.

Lemma utf8_bytes_bounded (n : nat) :
  forall s, List.length s <= n -> wellFormed s ->
            Forall (fun b => (b < 256)%N) (utf8 s).
Proof.
  induction n as [|n IH]; intros s Hlen Hwf.
  - destruct s; [constructor | simpl in Hlen; lia].
  - destruct s as [|c rest]; [constructor|].
    inversion_clear Hwf as [|? ? Hc Hrest].
    simpl in Hlen.
    assert (Hr : Forall (fun b => (b < 256)%N) (utf8 rest)).
    { apply IH; [lia | exact Hrest]. }
    assert (Hrepl : Forall (fun b => (b < 256)%N) replacementBytes).
    { repeat constructor. }
    cbn [utf8].
    destruct (c <? 128)%N eqn:E1.
    { apply N.ltb_lt in E1. constructor; [lia | assumption]. }
    destruct (c <? 2048)%N eqn:E2.
    { apply N.ltb_lt in E2. repeat constructor; try assumption; div_lia. }
    destruct (isHighSurrogate c) eqn:E3.
    { destruct rest as [|d rest']; [exact Hrepl|].
      destruct (isLowSurrogate d) eqn:E4.
      - inversion_clear Hrest as [|? ? Hd Hrest'].
        unfold isHighSurrogate in E3. unfold isLowSurrogate in E4.
        apply andb_true_iff in E3. destruct E3 as (E3a & E3b).
        apply andb_true_iff in E4. destruct E4 as (E4a & E4b).
        apply N.leb_le in E3a, E3b, E4a, E4b.
        assert (Hr' : Forall (fun b => (b < 256)%N) (utf8 rest')).
        { apply IH; [simpl in Hlen; lia | exact Hrest']. }
        repeat constructor; try assumption;
          div_lia.
      - apply Forall_app. split; assumption. }
    destruct (isLowSurrogate c).
    { apply Forall_app. split; assumption. }
    repeat constructor; try assumption;
      div_lia.
Qed.

Lemma wellFormed_js (s : string) : wellFormed (js s).
Proof.
  unfold wellFormed, js. apply Forall_forall. intros c Hin.
  apply in_map_iff in Hin. destruct Hin as (a & <- & _).
  pose proof (N_ascii_bounded a). lia.
Qed.

Lemma wellFormed_tpl (s : string) : wellFormed (tpl s).
Proof.
  unfold wellFormed, tpl. apply Forall_forall. intros c Hin.
  apply in_map_iff in Hin. destruct Hin as (x & <- & Hx).
  destruct (x =? 96)%N; [lia|].
  pose proof (wellFormed_js s) as W. unfold wellFormed in W.
  rewrite Forall_forall in W. apply W, Hx.
Qed.

Ltac wellFormed_page :=
  repeat (apply Forall_app; split);
  try apply wellFormed_tpl; try assumption; repeat constructor.

Lemma wellFormed_page_polling (date siteName : jsstring) (projectName : JsVal) :
  wellFormed date -> wellFormed siteName -> wellFormed (template projectName) ->
  wellFormed (Polling.htmlContent date siteName projectName).
Proof. intros Hd Hs Hp. unfold Polling.htmlContent, wellFormed. wellFormed_page. Qed.

Lemma wellFormed_page_immediate (date siteName : jsstring) (projectName : JsVal) :
  wellFormed date -> wellFormed siteName -> wellFormed (template projectName) ->
  wellFormed (Immediate.htmlContent date siteName projectName).
Proof. intros Hd Hs Hp. unfold Immediate.htmlContent, wellFormed. wellFormed_page. Qed.

Lemma page_survives_base64 (page : jsstring) :
  wellFormed page -> base64Decode (base64 (utf8 page)) = Some (utf8 page).
Proof.
  intros H. apply base64Decode_base64.
  apply (utf8_bytes_bounded (List.length page)); [apply le_n | exact H].
Qed.

(** ** Project resolution and deployment submission *)

(** C7. When the creation [POST] is answered with status 409 and the
    following [GET] of the project by name with a 2xx response holding
    a project, [createOrGetProject] returns that project after these
    two calls and throws nothing.  Both variants. *)
Theorem createOrGetProject_conflict_recovers :
  forall (token : JsVal) (platform : Platform) (projectName : jsstring)
         (t : Trace) (createResponse getResponse : Response) (project : Json),
    status createResponse = 409%N ->
    ok getResponse = true ->
    json getResponse = Normal project ->
    (let create := Polling.createProjectRequest token projectName in
     let get := Polling.getProjectRequest token projectName in
     platform t create = Normal createResponse ->
     platform (t ++ [Fetched create]) get = Normal getResponse ->
     Polling.createOrGetProject token platform projectName t
     = (Normal project, t ++ [Fetched create; Fetched get]))
    /\
    (let create := Immediate.createProjectRequest token projectName in
     let get := Immediate.getProjectRequest token projectName in
     platform t create = Normal createResponse ->
     platform (t ++ [Fetched create]) get = Normal getResponse ->
     Immediate.createOrGetProject token platform projectName t
     = (Normal project, t ++ [Fetched create; Fetched get])).
Proof.
  intros token platform projectName t cr gr project Hst Hok Hjson.
  assert (Hno : ok cr = false).
  { unfold ok. rewrite Hst. reflexivity. }
  split; intros create get Hc Hg.
  - unfold Polling.createOrGetProject, tryCatch, bind, fetch, lift.
    fold create. rewrite Hc, Hno, Hst, N.eqb_refl. cbv beta iota.
    fold get. rewrite Hg, Hok, Hjson.
    rewrite <- app_assoc. reflexivity.
  - unfold Immediate.createOrGetProject, tryCatch, bind, fetch, lift.
    fold create. rewrite Hc, Hno, Hst, N.eqb_refl. cbv beta iota.
    fold get. rewrite Hg, Hok, Hjson.
    rewrite <- app_assoc. reflexivity.
Qed.

Lemma createOrGetProject_conflict_recovers_witness :
  Polling.createOrGetProject sampleToken
    (scripted [replyText 409 "exists"; replyJson 200 sampleProject])
    (js "my-site") []
  = (Normal (JsonObj sampleProject),
     [Fetched (Polling.createProjectRequest sampleToken (js "my-site"));
      Fetched (Polling.getProjectRequest sampleToken (js "my-site"))]).
Proof.
  refine (proj1 (createOrGetProject_conflict_recovers
            sampleToken
            (scripted [replyText 409 "exists"; replyJson 200 sampleProject])
            (js "my-site") []
            {| status := 409; text := js "exists";
               json := Throw (mkError (js "Unexpected token in JSON at position 0")) |}
            {| status := 200; text := stringify sampleProject;
               json := Normal (JsonObj sampleProject) |}
            (JsonObj sampleProject) _ _ _) _ _);
    reflexivity.
Defined.

(** The call made by [createDeployment] does not depend on what the
    platform answers: exactly one [POST] with the payload. *)
Lemma createDeployment_polling_trace
    (token : JsVal) (platform : Platform) (date : jsstring)
    (o : Obj) (siteName : jsstring) (t : Trace) :
  snd (Polling.createDeployment token platform date (JsonObj o) siteName t)
  = t ++ [Fetched (Polling.createDeploymentRequest token
                     (Polling.deploymentPayload date (name o) (id o) siteName))].
Proof.
  unfold Polling.createDeployment, tryCatch, bind, fetch, lift, throw.
  simpl prop. cbv iota.
  destruct (platform t _) as [r|e]; [|reflexivity].
  destruct (ok r); simpl negb; cbv iota; [|reflexivity].
  destruct (json r); reflexivity.
Qed.

Lemma createDeployment_immediate_trace
    (token : JsVal) (platform : Platform) (date : jsstring)
    (o : Obj) (siteName : jsstring) (t : Trace) :
  snd (Immediate.createDeployment token platform date (JsonObj o) siteName t)
  = t ++ [Fetched (Immediate.createDeploymentRequest token
                     (Immediate.deploymentPayload date (name o) (id o) siteName))].
Proof.
  unfold Immediate.createDeployment, bind, fetch, lift, throw.
  simpl prop. cbv iota.
  destruct (platform t _) as [r|e]; [|reflexivity].
  destruct (ok r); simpl negb; cbv iota; [|reflexivity].
  destruct (json r); reflexivity.
Qed.

(** C8. For every project and site name, [createDeployment] sends one
    request, whose payload holds exactly one file entry: file
    ["index.html"], data the base64 encoding of the generated page,
    encoding ["base64"]; the target is ["production"], the project
    field is the id of the project, and no build, install or output
    command is set ([null] in the polling variant, absent in the
    other).  With strings of 16-bit code units, the bytes of the page
    can be read back from [data]. *)
Theorem createDeployment_payload :
  forall (token : JsVal) (platform : Platform) (date : jsstring)
         (o : Obj) (siteName : jsstring) (t : Trace),
    (let payload := Polling.deploymentPayload date (name o) (id o) siteName in
     let page := Polling.htmlContent date siteName (name o) in
     snd (Polling.createDeployment token platform date (JsonObj o) siteName t)
       = t ++ [Fetched (Polling.createDeploymentRequest token payload)]
     /\ reqBody (Polling.createDeploymentRequest token payload)
        = Some (DeploymentBody payload)
     /\ Deployment.files payload
        = [ {| file := js "index.html";
               data := base64 (utf8 page);
               encoding := js "base64" |} ]
     /\ (wellFormed date -> wellFormed siteName ->
         wellFormed (template (name o)) ->
         base64Decode (base64 (utf8 page)) = Some (utf8 page))
     /\ Deployment.target payload = js "production"
     /\ Deployment.project payload = id o
     /\ Deployment.buildCommand payload = null
     /\ Deployment.installCommand payload = null
     /\ Deployment.outputDirectory payload = null)
    /\
    (let payload := Immediate.deploymentPayload date (name o) (id o) siteName in
     let page := Immediate.htmlContent date siteName (name o) in
     snd (Immediate.createDeployment token platform date (JsonObj o) siteName t)
       = t ++ [Fetched (Immediate.createDeploymentRequest token payload)]
     /\ reqBody (Immediate.createDeploymentRequest token payload)
        = Some (DeploymentBody payload)
     /\ Deployment.files payload
        = [ {| file := js "index.html";
               data := base64 (utf8 page);
               encoding := js "base64" |} ]
     /\ (wellFormed date -> wellFormed siteName ->
         wellFormed (template (name o)) ->
         base64Decode (base64 (utf8 page)) = Some (utf8 page))
     /\ Deployment.target payload = js "production"
     /\ Deployment.project payload = id o
     /\ Deployment.buildCommand payload = undefined
     /\ Deployment.installCommand payload = undefined
     /\ Deployment.outputDirectory payload = undefined).
Proof.
  intros token platform date o siteName t. split.
  - intros payload page. split; [apply createDeployment_polling_trace|].
    repeat split. intros Hd Hs Hp.
    apply page_survives_base64, wellFormed_page_polling; assumption.
  - intros payload page. split; [apply createDeployment_immediate_trace|].
    repeat split. intros Hd Hs Hp.
    apply page_survives_base64, wellFormed_page_immediate; assumption.
Qed.

Lemma createDeployment_payload_witness :
  let page := Polling.htmlContent sampleDate (js "Cool") (Str (js "my-site")) in
  base64Decode (base64 (utf8 page)) = Some (utf8 page).
Proof.
  intros page.
  refine (proj1 (proj2 (proj2 (proj2 (proj1
            (createDeployment_payload sampleToken samplePlatform sampleDate
               sampleProject (js "Cool") []))))) _ _ _);
    vm_compute; repeat constructor.
Defined.

(** ** The handler *)

Lemma js_nonempty (a : ascii) (s : string) : js (String a s) <> [].
Proof. discriminate. Qed.

Lemma js_app_nonempty (a : ascii) (s : string) (rest : jsstring) :
  js (String a s) ++ rest <> [].
Proof. discriminate. Qed.

Lemma orString_message (e : Error) (fallback : jsstring) :
  message e <> [] -> orString (Str (message e)) fallback = message e.
Proof. destruct (message e); [intros H; contradiction H|]; reflexivity. Qed.

Section Combinators.

Context {A B : Type}.

Lemma throws_ret (a : A) : throwsWithMessage (ret a).
Proof. intros t e t' H. discriminate H. Qed.

Lemma throws_throw (e : Error) :
  message e <> [] -> throwsWithMessage (@throw A e).
Proof. intros He t e' t' H. injection H as <- _. exact He. Qed.

Lemma throws_bind (m : Eff A) (k : A -> Eff B) :
  throwsWithMessage m -> (forall a, throwsWithMessage (k a)) ->
  throwsWithMessage (bind m k).
Proof.
  intros Hm Hk t e t' H. unfold bind in H.
  destruct (m t) as [[a|e1] t1] eqn:E.
  - eapply Hk, H.
  - injection H as <- <-. eapply Hm, E.
Qed.

(** What leaves a [try] with a [catch] is thrown by the [catch]. *)
Lemma throws_tryCatch (m : Eff A) (handler : Error -> Eff A) :
  (forall e, throwsWithMessage (handler e)) ->
  throwsWithMessage (tryCatch m handler).
Proof.
  intros Hh t e t' H. unfold tryCatch in H.
  destruct (m t) as [[a|e1] t1].
  - discriminate H.
  - eapply Hh, H.
Qed.

End Combinators.

Lemma throws_prop (field : Obj -> JsVal) (key : string) (j : Json) :
  throwsWithMessage (lift (prop field key j)).
Proof.
  intros t e t' H. unfold lift, prop in H. destruct j.
  - injection H as <- _. discriminate.
  - discriminate H.
Qed.

Lemma throws_destructure (b : option ReqBody) :
  throwsWithMessage (lift (destructure b)).
Proof.
  intros t e t' H. unfold lift, destructure in H. destruct b.
  - discriminate H.
  - injection H as <- _. discriminate.
Qed.

Lemma returns_ret (res : Res) :
  shaped (resBody res) -> returnsShaped (ret res).
Proof. intros Hs t res' t' H. injection H as <- _. exact Hs. Qed.

Lemma returns_throw (e : Error) : returnsShaped (throw e).
Proof. intros t res t' H. discriminate H. Qed.

Lemma returns_bind (A : Type) (m : Eff A) (k : A -> Eff Res) :
  (forall a, returnsShaped (k a)) -> returnsShaped (bind m k).
Proof.
  intros Hk t res t' H. unfold bind in H.
  destruct (m t) as [[a|e1] t1].
  - eapply Hk, H.
  - discriminate H.
Qed.

Create HintDb throws.

Ltac throws :=
  repeat first
    [ solve [auto with throws nocore]
    | apply throws_ret
    | apply throws_prop
    | apply throws_destructure
    | apply throws_throw; discriminate
    | apply throws_tryCatch; intros ?
    | apply throws_bind; [|intros ?] ].

Ltac returns :=
  repeat first
    [ apply returns_throw
    | apply returns_ret; exact I
    | apply returns_bind; intros ? ].

Section PollingHandler.

Variable toLowerCase : jsstring -> jsstring.
Variable DAWG_TOKEN : JsVal.
Variable platform : Platform.
Variable date : jsstring.

Let handler := Polling.handler toLowerCase DAWG_TOKEN platform date.
Let handlerTry := Polling.handlerTry toLowerCase DAWG_TOKEN platform date.

Lemma polling_createOrGetProject_throws (projectName : jsstring) :
  throwsWithMessage (Polling.createOrGetProject DAWG_TOKEN platform projectName).
Proof. unfold Polling.createOrGetProject. throws. Qed.

Lemma polling_createDeployment_throws (project : Json) (siteName : jsstring) :
  throwsWithMessage
    (Polling.createDeployment DAWG_TOKEN platform date project siteName).
Proof. unfold Polling.createDeployment. throws. Qed.

Lemma polling_waitForDeploymentReady_throws (deploymentId deploymentUrl : JsVal)
    (maxAttempts : nat) :
  throwsWithMessage
    (Polling.waitForDeploymentReady DAWG_TOKEN platform
       deploymentId deploymentUrl maxAttempts).
Proof.
  unfold Polling.waitForDeploymentReady.
  generalize maxAttempts at 2. intros remaining.
  induction remaining as [|later IH]; simpl.
  - throws.
  - apply throws_bind.
    + apply throws_tryCatch. intros e. unfold Polling.pollCatch.
      destruct (_ =? _); [destruct (truthy deploymentUrl)|]; throws.
    + intros [|value]; [exact IH | throws].
Qed.

Hint Resolve polling_createOrGetProject_throws
  polling_createDeployment_throws
  polling_waitForDeploymentReady_throws : throws.

Lemma polling_handlerTry_throws (req : Req) :
  throwsWithMessage (handlerTry req).
Proof.
  unfold handlerTry, Polling.handlerTry.
  destruct (negb (truthy DAWG_TOKEN)); [throws|].
  destruct (negb (includes _ _)); [throws|].
  apply throws_bind; [throws|]. intros fields.
  destruct (projectName fields) as [| |[|c s]]; throws.
Qed.

Lemma polling_handlerTry_returns (req : Req) :
  returnsShaped (handlerTry req).
Proof.
  unfold handlerTry, Polling.handlerTry.
  destruct (negb (truthy DAWG_TOKEN)); [returns|].
  destruct (negb (includes _ _)); [returns|].
  apply returns_bind. intros fields.
  destruct (projectName fields) as [| |[|c s]]; returns.
Qed.

(** On a [POST] request the answer is the one of the [try] block, or
    the one the [catch] block makes of the error. *)
Lemma polling_handler_post (req : Req) (t : Trace) :
  method req = js "POST" ->
  handler req t
  = match handlerTry req t with
    | (Normal res, t') => (res, t')
    | (Throw error, t') => (failure 500 (message error), t')
    end.
Proof.
  intros Hm. unfold handler, Polling.handler. rewrite Hm.
  change (jsstring_eqb (js "POST") (js "OPTIONS")) with false.
  change (jsstring_eqb (js "POST") (js "POST")) with true.
  cbv iota. simpl negb. cbv iota. fold (handlerTry req t).
  destruct (handlerTry req t) as [[res|e] t'] eqn:E; [reflexivity|].
  rewrite orString_message; [reflexivity|].
  eapply polling_handlerTry_throws, E.
Qed.

End PollingHandler.

Section PollingSteps.

Variable toLowerCase : jsstring -> jsstring.
Variable DAWG_TOKEN : JsVal.
Variable platform : Platform.
Variable date : jsstring.

Let handler := Polling.handler toLowerCase DAWG_TOKEN platform date.

Ltac run_handler :=
  unfold handler; rewrite polling_handler_post by assumption;
  unfold Polling.handlerTry, bind, lift, throw, ret.

Lemma polling_step_failure (req : Req) (t : Trace) (m : jsstring) (t' : Trace) :
  method req = js "POST" ->
  PollingStepFails toLowerCase DAWG_TOKEN platform date req t m t' ->
  exists code, handler req t = (failure code m, t').
Proof.
  intros Hm Hfail.
  destruct Hfail as
    [ Htok | Htok Hct | e Htok Hct Hbody | fields Htok Hct Hbody Hname
    | fields c s e t1 Htok Hct Hbody Hname Hcreate
    | fields c s project e t1 t2 Htok Hct Hbody Hname Hcreate Hdeploy
    | fields c s project deployment e t1 t2 t3
        Htok Hct Hbody Hname Hcreate Hdeploy Hwait ];
    run_handler; rewrite Htok; cbn [negb]; cbv iota;
    try (rewrite Hct; cbn [negb]; cbv iota).
  - exists 500%N. reflexivity.
  - exists 500%N. reflexivity.
  - exists 500%N. rewrite Hbody. reflexivity.
  - exists 400%N. rewrite Hbody. cbn [destructure].
    destruct (projectName fields) as [| |[|c s]];
      try discriminate Hname; reflexivity.
  - exists 500%N. rewrite Hbody. cbn [destructure]. rewrite Hname.
    cbv zeta. rewrite Hcreate. reflexivity.
  - exists 500%N. rewrite Hbody. cbn [destructure]. rewrite Hname.
    cbv zeta. rewrite Hcreate. cbn [prop]. rewrite Hdeploy. reflexivity.
  - exists 500%N. rewrite Hbody. cbn [destructure]. rewrite Hname.
    cbv zeta. rewrite Hcreate. cbn [prop]. rewrite Hdeploy. cbn [prop].
    rewrite Hwait. reflexivity.
Qed.

Lemma polling_handler_shaped (req : Req) (t : Trace) :
  method req = js "POST" -> shaped (resBody (fst (handler req t))).
Proof.
  intros Hm. unfold handler. rewrite polling_handler_post by assumption.
  destruct (Polling.handlerTry _ _ _ _ req t) as [[res|e] t'] eqn:E.
  - eapply polling_handlerTry_returns, E.
  - exact I.
Qed.

End PollingSteps.

Section ImmediateHandler.

Variable toLowerCase : jsstring -> jsstring.
Variable VERCEL_TOKEN : JsVal.
Variable platform : Platform.
Variable date : jsstring.

Let handler := Immediate.handler toLowerCase VERCEL_TOKEN platform date.
Let handlerTry := Immediate.handlerTry toLowerCase VERCEL_TOKEN platform date.

Lemma immediate_handlerTry_returns (req : Req) :
  returnsShaped (handlerTry req).
Proof.
  unfold handlerTry, Immediate.handlerTry.
  apply returns_bind. intros fields.
  destruct (negb (truthy VERCEL_TOKEN)); [returns|].
  destruct (projectName fields) as [| |[|c s]]; returns.
Qed.

Lemma immediate_handler_post (req : Req) (t : Trace) :
  method req = js "POST" ->
  handler req t
  = match handlerTry req t with
    | (Normal res, t') => (res, t')
    | (Throw error, t') => (failure 500 (message error), t')
    end.
Proof.
  intros Hm. unfold handler, Immediate.handler. rewrite Hm.
  change (jsstring_eqb (js "POST") (js "OPTIONS")) with false.
  change (jsstring_eqb (js "POST") (js "POST")) with true.
  reflexivity.
Qed.

Ltac run_handler :=
  unfold handler; rewrite immediate_handler_post by assumption;
  unfold handlerTry, Immediate.handlerTry, bind, lift, throw, ret.

Lemma immediate_step_failure (req : Req) (t : Trace) (m : jsstring) (t' : Trace) :
  method req = js "POST" ->
  ImmediateStepFails toLowerCase VERCEL_TOKEN platform date req t m t' ->
  exists code, handler req t = (failure code m, t').
Proof.
  intros Hm Hfail.
  destruct Hfail as
    [ e Hbody | fields Hbody Htok | fields Hbody Htok Hname
    | fields c s e t1 Hbody Htok Hname Hcreate
    | fields c s project e t1 t2 Hbody Htok Hname Hcreate Hdeploy ];
    run_handler; rewrite Hbody; cbn [destructure];
    try (rewrite Htok; cbn [negb]; cbv iota).
  - exists 500%N. reflexivity.
  - exists 500%N. reflexivity.
  - exists 400%N.
    destruct (projectName fields) as [| |[|c s]];
      try discriminate Hname; reflexivity.
  - exists 500%N. rewrite Hname. cbv zeta. rewrite Hcreate. reflexivity.
  - exists 500%N. rewrite Hname. cbv zeta. rewrite Hcreate, Hdeploy.
    reflexivity.
Qed.

Lemma immediate_handler_shaped (req : Req) (t : Trace) :
  method req = js "POST" -> shaped (resBody (fst (handler req t))).
Proof.
  intros Hm. unfold handler. rewrite immediate_handler_post by assumption.
  fold (handlerTry req t).
  destruct (handlerTry req t) as [[res|e] t'] eqn:E.
  - eapply immediate_handlerTry_returns, E.
  - exact I.
Qed.

End ImmediateHandler.

(** C3, as the claim has it, fails: the name [" "] is empty after
    trimming, and both variants go on to create the project ["-"] on
    the platform instead of rejecting the request. *)
Lemma blank_name_reaches_the_platform :
  let req := postRequest (Str (js " ")) undefined in
  let polling := Polling.handler toLowerCaseAscii sampleToken samplePlatform
                   sampleDate req [] in
  let immediate := Immediate.handler toLowerCaseAscii sampleToken samplePlatform
                     sampleDate req [] in
  blank (js " ") = true
  /\ ~ rejectedBeforeNetwork polling []
  /\ ~ rejectedBeforeNetwork immediate []
  /\ hd_error (snd polling)
     = Some (Fetched (Polling.createProjectRequest sampleToken (js "-")))
  /\ hd_error (snd immediate)
     = Some (Fetched (Immediate.createProjectRequest sampleToken (js "-"))).
Proof.
  intros req polling immediate.
  split; [reflexivity|].
  split; [|split].
  - intros (_ & H). vm_compute in H. discriminate H.
  - intros (_ & H). vm_compute in H. discriminate H.
  - split; vm_compute; reflexivity.
Qed.

(** C3, amended. For every [POST] request whose [projectName] is
    missing, [null] or the empty string (nothing is trimmed), the
    handler answers with a failure result and calls nothing; the answer
    is [400 'Project name is required'] once the checks that come
    first have passed: the credential is set and, in the polling
    variant, the content type is [multipart/form-data]. *)
Theorem handler_rejects_missing_name :
  forall (toLowerCase : jsstring -> jsstring) (token : JsVal)
         (platform : Platform) (date : jsstring)
         (req : Req) (fields : ReqBody) (t : Trace),
    method req = js "POST" ->
    body req = Some fields ->
    truthy (projectName fields) = false ->
    let polling := Polling.handler toLowerCase token platform date req t in
    let immediate := Immediate.handler toLowerCase token platform date req t in
    (truthy token = true ->
     includes (orString (contentTypeHeader req) []) (js "multipart/form-data") = true ->
     rejectedBeforeNetwork polling t)
    /\ (exists code m, polling = (failure code m, t))
    /\ (truthy token = true -> rejectedBeforeNetwork immediate t)
    /\ (exists code m, immediate = (failure code m, t)).
Proof.
  intros lc token platform date req fields t Hm Hbody Hname polling immediate.
  assert (P : forall m, PollingStepFails lc token platform date req t m t ->
                        exists code, polling = (failure code m, t)).
  { intros m. apply polling_step_failure, Hm. }
  assert (I : forall m, ImmediateStepFails lc token platform date req t m t ->
                        exists code, immediate = (failure code m, t)).
  { intros m. apply immediate_step_failure, Hm. }
  assert (P400 : truthy token = true ->
                 includes (orString (contentTypeHeader req) [])
                          (js "multipart/form-data") = true ->
                 polling = (failure 400 (js "Project name is required"), t)).
  { intros Htok Hct. subst polling.
    rewrite polling_handler_post by assumption.
    unfold Polling.handlerTry, bind, lift, ret.
    rewrite Htok, Hct, Hbody. cbn [negb destructure].
    destruct (projectName fields) as [| |[|c s]];
      try discriminate Hname; reflexivity. }
  assert (I400 : truthy token = true ->
                 immediate = (failure 400 (js "Project name is required"), t)).
  { intros Htok. subst immediate.
    rewrite immediate_handler_post by assumption.
    unfold Immediate.handlerTry, bind, lift, ret.
    rewrite Htok, Hbody. cbn [negb destructure].
    destruct (projectName fields) as [| |[|c s]];
      try discriminate Hname; reflexivity. }
  split; [|split; [|split]].
  - intros Htok Hct. rewrite (P400 Htok Hct). split; reflexivity.
  - destruct (truthy token) eqn:Htok.
    + destruct (includes (orString (contentTypeHeader req) [])
                         (js "multipart/form-data")) eqn:Hct.
      * exists 400%N. eexists. apply P400; reflexivity.
      * edestruct P as (code & E);
          [apply PollingContentType; assumption|].
        exists code. eexists. exact E.
    + edestruct P as (code & E); [apply PollingConfig; assumption|].
      exists code. eexists. exact E.
  - intros Htok. rewrite (I400 Htok). split; reflexivity.
  - destruct (truthy token) eqn:Htok.
    + exists 400%N. eexists. apply I400; reflexivity.
    + edestruct I as (code & E);
        [eapply ImmediateConfig; eassumption|].
      exists code. eexists. exact E.
Qed.

Lemma handler_rejects_missing_name_witness :
  rejectedBeforeNetwork
    (Polling.handler toLowerCaseAscii sampleToken samplePlatform sampleDate
       (postRequest (Str []) (Str (js "Cool"))) [])
    []
  /\ rejectedBeforeNetwork
       (Immediate.handler toLowerCaseAscii sampleToken samplePlatform sampleDate
          (postRequest undefined undefined) [])
       [].
Proof.
  split.
  - refine (proj1 (handler_rejects_missing_name toLowerCaseAscii sampleToken
              samplePlatform sampleDate (postRequest (Str []) (Str (js "Cool")))
              {| projectName := Str []; siteName := Str (js "Cool") |} []
              _ _ _) _ _); reflexivity.
  - refine (proj1 (proj2 (proj2 (handler_rejects_missing_name toLowerCaseAscii
              sampleToken samplePlatform sampleDate
              (postRequest undefined undefined)
              {| projectName := undefined; siteName := undefined |} []
              _ _ _))) _); reflexivity.
Defined.

(** C9. On a [POST] request, every failure of a step (configuration
    check, checks of the request, project resolution, deployment
    submission, polling) makes the handler answer
    [{success: false, error}] with the message of the failure; every
    error thrown inside the [try] block is answered that way with
    status 500, and whatever happens the body of the answer has one of
    the two uniform shapes.  Both variants. *)
Theorem handler_failures_are_shaped :
  forall (toLowerCase : jsstring -> jsstring) (token : JsVal)
         (platform : Platform) (date : jsstring) (req : Req) (t : Trace),
    method req = js "POST" ->
    let polling := Polling.handler toLowerCase token platform date req t in
    let immediate := Immediate.handler toLowerCase token platform date req t in
    (forall m t',
        PollingStepFails toLowerCase token platform date req t m t' ->
        exists code, polling = (failure code m, t'))
    /\ (forall e t',
           Polling.handlerTry toLowerCase token platform date req t = (Throw e, t') ->
           polling = (failure 500 (message e), t'))
    /\ shaped (resBody (fst polling))
    /\ (forall m t',
           ImmediateStepFails toLowerCase token platform date req t m t' ->
           exists code, immediate = (failure code m, t'))
    /\ (forall e t',
           Immediate.handlerTry toLowerCase token platform date req t = (Throw e, t') ->
           immediate = (failure 500 (message e), t'))
    /\ shaped (resBody (fst immediate)).
Proof.
  intros lc token platform date req t Hm polling immediate.
  repeat split.
  - intros m t'. apply polling_step_failure, Hm.
  - intros e t' H. subst polling.
    rewrite polling_handler_post, H by assumption. reflexivity.
  - apply polling_handler_shaped, Hm.
  - intros m t'. apply immediate_step_failure, Hm.
  - intros e t' H. subst immediate.
    rewrite immediate_handler_post, H by assumption. reflexivity.
  - apply immediate_handler_shaped, Hm.
Qed.

Lemma handler_failures_are_shaped_witness :
  let req := postRequest (Str (js "My Site")) undefined in
  let down := scripted [replyText 500 "boom"] in
  Polling.handler toLowerCaseAscii sampleToken down sampleDate req []
  = (failure 500
       (js "Project handling failed: Failed to create/get project: 500 - boom"),
     [Fetched (Polling.createProjectRequest sampleToken (js "my-site"))]).
Proof.
  intros req down.
  refine (proj1 (proj2 (handler_failures_are_shaped toLowerCaseAscii sampleToken
            down sampleDate req [] _))
            (mkError (js "Project handling failed: Failed to create/get project: 500 - boom"))
            _ _).
  - reflexivity.
  - vm_compute. reflexivity.
Defined.

(** The run of section 8 of the specification: the name ["My Site"]
    with site name ["Cool"] on a platform where all goes well. *)
Example end_to_end :
  fst (Polling.handler toLowerCaseAscii sampleToken samplePlatform sampleDate
         (postRequest (Str (js "My Site")) (Str (js "Cool"))) [])
  = {| statusCode := 200;
       resBody := Success (js "https://my-site-abc.vercel.app")
                          (Str (js "prj_1")) (Str (js "dep1"))
                          (js "my-site") (js "Cool") |}.
Proof. vm_compute. reflexivity. Qed.

(** * Further properties of the code *)

(** ** The sanitizer on names that are already clean *)

Lemma replaceInvalid_valid (s : jsstring) :
  Forall (fun c => inClass c = true) s -> replaceInvalid s = s.
Proof.
  induction 1 as [|c s Hc _ IH]; simpl; [reflexivity|].
  rewrite Hc, IH. reflexivity.
Qed.

Lemma noDoubleDash_tail (c : codeunit) (s : jsstring) :
  noDoubleDash (c :: s) -> noDoubleDash s.
Proof. intros H pre post E. apply (H (c :: pre) post). simpl. rewrite E. reflexivity. Qed.

Lemma collapseFrom_valid (s : jsstring) :
  forall b : bool,
    noDoubleDash s ->
    (b = true -> forall post, s <> dash :: post) ->
    collapseFrom b s = s.
Proof.
  induction s as [|c s IH]; intros b Hnd Hhead; simpl; [reflexivity|].
  destruct (c =? dash)%N eqn:E.
  - apply N.eqb_eq in E. subst c.
    destruct b.
    + exfalso. apply (Hhead eq_refl s). reflexivity.
    + f_equal. apply IH.
      * eapply noDoubleDash_tail, Hnd.
      * intros _ post Es. apply (Hnd [] post). simpl. rewrite Es. reflexivity.
  - f_equal. apply IH.
    + eapply noDoubleDash_tail, Hnd.
    + discriminate.
Qed.

Lemma cleanProjectName_valid (lc : jsstring -> jsstring) (s : jsstring) :
  validName (lc s) -> cleanProjectName lc s = lc s.
Proof.
  intros (Hclass & Hnd & Hlen).
  unfold cleanProjectName, collapseDashes.
  rewrite substring_prefix, (replaceInvalid_valid _ Hclass).
  rewrite (collapseFrom_valid _ false Hnd) by discriminate.
  apply firstn_all2, Hlen.
Qed.

Lemma cleanProjectName_validName (lc : jsstring -> jsstring) (raw : jsstring) :
  validName (cleanProjectName lc raw).
Proof.
  unfold cleanProjectName. rewrite substring_prefix.
  repeat split.
  - apply Forall_firstn, collapseFrom_inClass, replaceInvalid_inClass.
  - apply noDoubleDash_firstn, collapseFrom_noDoubleDash.
  - apply firstn_le_length.
Qed.

(** X1. A name that is made of characters of [a-z0-9-] only, has no
    two dashes in a row, is at most 50 long and is its own lowercase
    form is left as it is by the sanitizer. *)
Theorem cleanProjectName_keeps_clean_names :
  forall (toLowerCase : jsstring -> jsstring) (projectName : jsstring),
    validName projectName ->
    toLowerCase projectName = projectName ->
    cleanProjectName toLowerCase projectName = projectName.
Proof.
  intros lc s Hvalid Hlc.
  rewrite cleanProjectName_valid; rewrite Hlc; [reflexivity | exact Hvalid].
Qed.

Lemma cleanProjectName_keeps_clean_names_witness :
  cleanProjectName toLowerCaseAscii (js "my-site-2") = js "my-site-2".
Proof.
  apply (cleanProjectName_keeps_clean_names toLowerCaseAscii (js "my-site-2")).
  - repeat split.
    + vm_compute. repeat constructor.
    + intros pre post E.
      do 10 (destruct pre as [|? pre]; [vm_compute in E; discriminate E|]).
      vm_compute in E. discriminate E.
    + vm_compute. lia.
  - reflexivity.
Defined.

(** X2. Sanitizing twice is sanitizing once: where the case conversion
    leaves the sanitized name alone (it is lowercase already), the
    sanitizer maps its own output to itself. *)
Theorem cleanProjectName_idempotent :
  forall (toLowerCase : jsstring -> jsstring) (raw : jsstring),
    toLowerCase (cleanProjectName toLowerCase raw)
      = cleanProjectName toLowerCase raw ->
    cleanProjectName toLowerCase (cleanProjectName toLowerCase raw)
      = cleanProjectName toLowerCase raw.
Proof.
  intros lc raw Hlc.
  rewrite cleanProjectName_valid; rewrite Hlc;
    [reflexivity | apply cleanProjectName_validName].
Qed.

Lemma cleanProjectName_idempotent_witness :
  cleanProjectName toLowerCaseAscii
    (cleanProjectName toLowerCaseAscii (js "My Cool Site!!!"))
  = cleanProjectName toLowerCaseAscii (js "My Cool Site!!!").
Proof.
  apply (cleanProjectName_idempotent toLowerCaseAscii (js "My Cool Site!!!")).
  reflexivity.
Defined.

(** ** Project resolution: the other outcomes *)

(** X3. When the creation [POST] is answered with a 2xx response
    holding a project, [createOrGetProject] returns that project after
    this one call; no [GET] follows.  Both variants. *)
Theorem createOrGetProject_created :
  forall (token : JsVal) (platform : Platform) (projectName : jsstring)
         (t : Trace) (createResponse : Response) (project : Json),
    ok createResponse = true ->
    json createResponse = Normal project ->
    (let create := Polling.createProjectRequest token projectName in
     platform t create = Normal createResponse ->
     Polling.createOrGetProject token platform projectName t
     = (Normal project, t ++ [Fetched create]))
    /\
    (let create := Immediate.createProjectRequest token projectName in
     platform t create = Normal createResponse ->
     Immediate.createOrGetProject token platform projectName t
     = (Normal project, t ++ [Fetched create])).
Proof.
  intros token platform projectName t cr project Hok Hjson.
  split; intros create Hc.
  - unfold Polling.createOrGetProject, tryCatch, bind, fetch, lift.
    fold create. rewrite Hc, Hok, Hjson. reflexivity.
  - unfold Immediate.createOrGetProject, tryCatch, bind, fetch, lift.
    fold create. rewrite Hc, Hok, Hjson. reflexivity.
Qed.

Lemma createOrGetProject_created_witness :
  Immediate.createOrGetProject sampleToken samplePlatform (js "my-site") []
  = (Normal (JsonObj sampleProject),
     [Fetched (Immediate.createProjectRequest sampleToken (js "my-site"))]).
Proof.
  refine (proj2 (createOrGetProject_created sampleToken samplePlatform
            (js "my-site") []
            {| status := 200; text := stringify sampleProject;
               json := Normal (JsonObj sampleProject) |}
            (JsonObj sampleProject) _ _) _);
    reflexivity.
Defined.

(** X4. When the creation [POST] is answered with a status that is
    neither 2xx nor 409, [createOrGetProject] throws after this one
    call, without trying the [GET]; the message holds the status, and
    in the polling variant the text of the response as well. *)
Theorem createOrGetProject_refused :
  forall (token : JsVal) (platform : Platform) (projectName : jsstring)
         (t : Trace) (createResponse : Response),
    ok createResponse = false ->
    status createResponse <> 409%N ->
    (let create := Polling.createProjectRequest token projectName in
     platform t create = Normal createResponse ->
     Polling.createOrGetProject token platform projectName t
     = (Throw (mkError (js "Project handling failed: "
                          ++ js "Failed to create/get project: "
                          ++ decimal (status createResponse)
                          ++ js " - " ++ text createResponse)),
        t ++ [Fetched create]))
    /\
    (let create := Immediate.createProjectRequest token projectName in
     platform t create = Normal createResponse ->
     Immediate.createOrGetProject token platform projectName t
     = (Throw (mkError (js "Project creation failed: "
                          ++ js "Failed to create/get project: "
                          ++ decimal (status createResponse))),
        t ++ [Fetched create])).
Proof.
  intros token platform projectName t cr Hok Hst.
  apply N.eqb_neq in Hst.
  split; intros create Hc.
  - unfold Polling.createOrGetProject, tryCatch, bind, fetch, lift, throw.
    fold create. rewrite Hc, Hok, Hst. reflexivity.
  - unfold Immediate.createOrGetProject, tryCatch, bind, fetch, lift, throw.
    fold create. rewrite Hc, Hok, Hst. reflexivity.
Qed.

Lemma createOrGetProject_refused_witness :
  Polling.createOrGetProject sampleToken (scripted [replyText 403 "forbidden"])
    (js "my-site") []
  = (Throw (mkError (js "Project handling failed: Failed to create/get project: 403 - forbidden")),
     [Fetched (Polling.createProjectRequest sampleToken (js "my-site"))]).
Proof.
  refine (proj1 (createOrGetProject_refused sampleToken
            (scripted [replyText 403 "forbidden"]) (js "my-site") []
            {| status := 403; text := js "forbidden";
               json := Throw (mkError (js "Unexpected token in JSON at position 0")) |}
            _ _) _).
  - reflexivity.
  - discriminate.
  - reflexivity.
Defined.

(** X5. When the creation [POST] is answered with 409 and the [GET] of
    the project with a status that is not 2xx, [createOrGetProject]
    throws after these two calls, and the message reports the
    creation: status 409 and, in the polling variant, the text of the
    creation response.  Nothing of the failed [GET] is reported. *)
Theorem createOrGetProject_conflict_unrecovered :
  forall (token : JsVal) (platform : Platform) (projectName : jsstring)
         (t : Trace) (createResponse getResponse : Response),
    status createResponse = 409%N ->
    ok getResponse = false ->
    (let create := Polling.createProjectRequest token projectName in
     let get := Polling.getProjectRequest token projectName in
     platform t create = Normal createResponse ->
     platform (t ++ [Fetched create]) get = Normal getResponse ->
     Polling.createOrGetProject token platform projectName t
     = (Throw (mkError (js "Project handling failed: "
                          ++ js "Failed to create/get project: "
                          ++ js "409"
                          ++ js " - " ++ text createResponse)),
        t ++ [Fetched create; Fetched get]))
    /\
    (let create := Immediate.createProjectRequest token projectName in
     let get := Immediate.getProjectRequest token projectName in
     platform t create = Normal createResponse ->
     platform (t ++ [Fetched create]) get = Normal getResponse ->
     Immediate.createOrGetProject token platform projectName t
     = (Throw (mkError (js "Project creation failed: Failed to create/get project: 409")),
        t ++ [Fetched create; Fetched get])).
Proof.
  intros token platform projectName t cr gr Hst Hok.
  assert (Hno : ok cr = false).
  { unfold ok. rewrite Hst. reflexivity. }
  split; intros create get Hc Hg.
  - unfold Polling.createOrGetProject, tryCatch, bind, fetch, lift, throw.
    fold create. rewrite Hc, Hno, Hst, N.eqb_refl. cbv beta iota.
    fold get. rewrite Hg, Hok. rewrite <- app_assoc. reflexivity.
  - unfold Immediate.createOrGetProject, tryCatch, bind, fetch, lift, throw.
    fold create. rewrite Hc, Hno, Hst, N.eqb_refl. cbv beta iota.
    fold get. rewrite Hg, Hok. rewrite <- app_assoc. reflexivity.
Qed.

Lemma createOrGetProject_conflict_unrecovered_witness :
  Polling.createOrGetProject sampleToken
    (scripted [replyText 409 "exists"; replyText 404 "gone"])
    (js "my-site") []
  = (Throw (mkError (js "Project handling failed: Failed to create/get project: 409 - exists")),
     [Fetched (Polling.createProjectRequest sampleToken (js "my-site"));
      Fetched (Polling.getProjectRequest sampleToken (js "my-site"))]).
Proof.
  refine (proj1 (createOrGetProject_conflict_unrecovered sampleToken
            (scripted [replyText 409 "exists"; replyText 404 "gone"])
            (js "my-site") []
            {| status := 409; text := js "exists";
               json := Throw (mkError (js "Unexpected token in JSON at position 0")) |}
            {| status := 404; text := js "gone";
               json := Throw (mkError (js "Unexpected token in JSON at position 0")) |}
            _ _) _ _);
    reflexivity.
Defined.

(** X6. When the platform cannot be reached for the creation [POST]
    ([fetch] rejects), [createOrGetProject] throws after this one call
    an error whose message is the one of the rejection behind the
    prefix of the variant. *)
Theorem createOrGetProject_unreachable :
  forall (token : JsVal) (platform : Platform) (projectName : jsstring)
         (t : Trace) (e : Error),
    (let create := Polling.createProjectRequest token projectName in
     platform t create = Throw e ->
     Polling.createOrGetProject token platform projectName t
     = (Throw (mkError (js "Project handling failed: " ++ message e)),
        t ++ [Fetched create]))
    /\
    (let create := Immediate.createProjectRequest token projectName in
     platform t create = Throw e ->
     Immediate.createOrGetProject token platform projectName t
     = (Throw (mkError (js "Project creation failed: " ++ message e)),
        t ++ [Fetched create])).
Proof.
  intros token platform projectName t e.
  split; intros create Hc.
  - unfold Polling.createOrGetProject, tryCatch, bind, fetch, throw.
    fold create. rewrite Hc. reflexivity.
  - unfold Immediate.createOrGetProject, tryCatch, bind, fetch, throw.
    fold create. rewrite Hc. reflexivity.
Qed.

Lemma createOrGetProject_unreachable_witness :
  Immediate.createOrGetProject sampleToken (scripted []) (js "my-site") []
  = (Throw (mkError (js "Project creation failed: fetch failed")),
     [Fetched (Immediate.createProjectRequest sampleToken (js "my-site"))]).
Proof.
  refine (proj2 (createOrGetProject_unreachable sampleToken (scripted [])
            (js "my-site") [] (mkError (js "fetch failed"))) _).
  reflexivity.
Defined.

(** ** The polling loop: the other outcomes *)

Section PollingRounds.

Variable DAWG_TOKEN : JsVal.
Variable platform : Platform.
Variables deploymentId deploymentUrl : JsVal.

Let query := Polling.statusRequest DAWG_TOKEN deploymentId.
Let pollOnce := Polling.pollOnce DAWG_TOKEN platform deploymentId.
Let pollLoop := Polling.pollLoop DAWG_TOKEN platform deploymentId deploymentUrl.

Lemma pollOnce_rejected (t : Trace) (e : Error) :
  platform t query = Throw e ->
  pollOnce t = (Throw e, t ++ [Fetched query]).
Proof.
  intros H. unfold pollOnce, Polling.pollOnce, bind, fetch.
  fold query. rewrite H. reflexivity.
Qed.

Lemma pollOnce_refused (t : Trace) (r : Response) :
  refuses (platform t query) r ->
  pollOnce t = (Normal Continue, t ++ [Fetched query]).
Proof.
  intros (H & Hok). unfold pollOnce, Polling.pollOnce, bind, fetch, ret.
  fold query. rewrite H, Hok. reflexivity.
Qed.


(** One round makes one query; a delay follows only when the round
    ends normally and asks for the next one. *)
Lemma pollOnce_trace (t : Trace) :
  pollOnce t = (Normal Continue, t ++ [Fetched query; Slept 2000])
  \/ snd (pollOnce t) = t ++ [Fetched query].
Proof.
  unfold pollOnce, Polling.pollOnce, bind, fetch, lift, sleep, ret, throw.
  fold query.
  destruct (platform t query) as [r|e]; [|right; reflexivity].
  destruct (ok r); cbn [negb]; cbv iota; [|right; reflexivity].
  destruct (json r) as [[|o]|e]; cbn [prop]; cbv iota;
    try (right; reflexivity).
  destruct (strictEq (readyState o) (js "READY")); [right; reflexivity|].
  destruct (strictEq (readyState o) (js "ERROR")); [right; reflexivity|].
  destruct (strictEq (readyState o) (js "CANCELED")); [right; reflexivity|].
  left. rewrite <- app_assoc. reflexivity.
Qed.

(** A round before the last one whose [try] block throws: the error is
    dropped and the next round starts at once. *)
Lemma pollLoop_caught_goes_on (maxAttempts later : nat) (t t1 : Trace) (e : Error) :
  pollOnce t = (Throw e, t1) ->
  S later < maxAttempts ->
  pollLoop maxAttempts (S (S later)) t = pollLoop maxAttempts (S later) t1.
Proof.
  intros H Hlt. unfold pollLoop. rewrite pollLoop_round.
  unfold tryCatch. fold pollOnce. rewrite H.
  unfold Polling.pollCatch.
  replace (maxAttempts - S later =? maxAttempts) with false.
  - reflexivity.
  - symmetry. apply Nat.eqb_neq. lia.
Qed.

(** The last round, when its [try] block throws. *)
Lemma pollLoop_last_caught (maxAttempts : nat) (t t1 : Trace) (e : Error) :
  pollOnce t = (Throw e, t1) ->
  pollLoop maxAttempts 1 t
  = if truthy deploymentUrl
    then (Normal (js "https://" ++ template deploymentUrl), t1)
    else (Throw (mkError (js "Deployment timeout: " ++ message e)), t1).
Proof.
  intros H. unfold pollLoop. rewrite pollLoop_round.
  unfold tryCatch. fold pollOnce. rewrite H.
  unfold Polling.pollCatch. rewrite Nat.sub_0_r, Nat.eqb_refl.
  destruct (truthy deploymentUrl); reflexivity.
Qed.

(** A round whose [try] block ends normally without a result. *)
Lemma pollLoop_continue (maxAttempts later : nat) (t t1 : Trace) :
  pollOnce t = (Normal Continue, t1) ->
  pollLoop maxAttempts (S later) t = pollLoop maxAttempts later t1.
Proof.
  intros H. unfold pollLoop. rewrite pollLoop_round.
  unfold tryCatch. fold pollOnce. rewrite H. reflexivity.
Qed.

Lemma pollLoop_pending_rounds (maxAttempts : nat) (n : nat) :
  forall (remaining : nat) (t : Trace) (o : Obj),
    n < remaining ->
    (forall i, i < n ->
       exists oi, reports (platform (t ++ pendingRounds query i) query) oi
                  /\ pending oi) ->
    reports (platform (t ++ pendingRounds query n) query) o ->
    readyState o = Str (js "READY") ->
    pollLoop maxAttempts remaining t
    = (Normal (js "https://" ++ template (url o)),
       t ++ pendingRounds query n ++ [Fetched query]).
Proof.
  induction n as [|n IH]; intros remaining t o Hlt Hpend Hrep Hready.
  - destruct remaining as [|later]; [lia|].
    simpl in Hrep. rewrite app_nil_r in Hrep.
    apply (pollLoop_ready _ _ _ _ _ _ _ _ Hrep Hready).
  - destruct remaining as [|later]; [lia|].
    destruct (Hpend 0) as (o0 & Hrep0 & Hpen0); [lia|].
    simpl in Hrep0. rewrite app_nil_r in Hrep0.
    unfold pollLoop.
    rewrite (pollLoop_pending _ _ _ _ _ _ _ _ Hrep0 Hpen0).
    fold pollLoop. fold query.
    rewrite (IH later (t ++ [Fetched query; Slept 2000]) o).
    + rewrite <- app_assoc. reflexivity.
    + lia.
    + intros i Hi. destruct (Hpend (S i)) as (oi & Hr & Hp); [lia|].
      exists oi. split; [|exact Hp].
      rewrite <- app_assoc. exact Hr.
    + rewrite <- app_assoc. exact Hrep.
    + exact Hready.
Qed.

Lemma pollLoop_all_refused (maxAttempts remaining : nat) :
  (forall t', exists r, refuses (platform t' query) r) ->
  forall t,
    pollLoop maxAttempts remaining t
    = (Throw (mkError (js "Deployment timeout: Maximum attempts reached")),
       t ++ repeat (Fetched query) remaining).
Proof.
  intros Hall.
  induction remaining as [|later IH]; intros t.
  - simpl. rewrite app_nil_r. reflexivity.
  - destruct (Hall t) as (r & Href).
    rewrite (pollLoop_continue _ _ _ _ (pollOnce_refused _ _ Href)).
    rewrite IH, <- app_assoc. reflexivity.
Qed.

Lemma pollLoop_all_rejected (maxAttempts later : nat) :
  (forall t', exists e, platform t' query = Throw e) ->
  later < maxAttempts ->
  forall t,
    exists e,
      platform (t ++ repeat (Fetched query) later) query = Throw e
      /\ pollLoop maxAttempts (S later) t
         = if truthy deploymentUrl
           then (Normal (js "https://" ++ template deploymentUrl),
                 t ++ repeat (Fetched query) (S later))
           else (Throw (mkError (js "Deployment timeout: " ++ message e)),
                 t ++ repeat (Fetched query) (S later)).
Proof.
  intros Hall.
  induction later as [|later IH]; intros Hlt t.
  - destruct (Hall t) as (e & He). exists e.
    simpl repeat. rewrite app_nil_r. split; [exact He|].
    apply pollLoop_last_caught, pollOnce_rejected, He.
  - destruct (Hall t) as (e0 & He0).
    destruct (IH ltac:(lia) (t ++ [Fetched query])) as (e & He & Hrun).
    exists e. rewrite <- app_assoc in He. split; [exact He|].
    rewrite (pollLoop_caught_goes_on _ _ _ _ _ (pollOnce_rejected _ _ He0)) by lia.
    rewrite Hrun, <- !app_assoc. reflexivity.
Qed.

(** What an error leaving the loop looks like, and what it has cost. *)
Lemma pollLoop_throws_timeout (maxAttempts remaining : nat) :
  remaining <= maxAttempts ->
  forall (t t' : Trace) (e : Error),
    pollLoop maxAttempts remaining t = (Throw e, t') ->
    (exists detail, message e = js "Deployment timeout: " ++ detail)
    /\ fetchCount t' = fetchCount t + remaining
    /\ (truthy deploymentUrl = true ->
        message e = js "Deployment timeout: Maximum attempts reached").
Proof.
  induction remaining as [|later IH]; intros Hle t t' e H.
  - injection H as <- <-. repeat split.
    + exists (js "Maximum attempts reached"). reflexivity.
    + lia.
  - assert (Hcount : forall t1, snd (pollOnce t) = t1 ->
                                fetchCount t1 = fetchCount t + 1).
    { intros t1 <-.
      destruct (pollOnce_trace t) as [E|E]; rewrite E;
        unfold fetchCount; cbn [snd]; rewrite filter_app, length_app;
        reflexivity. }
    destruct (pollOnce t) as [[[|value]|e1] t1] eqn:E.
    + rewrite (pollLoop_continue _ _ _ _ E) in H.
      destruct (IH ltac:(lia) _ _ _ H) as (Hm & Hc & Hf).
      rewrite Hc, (Hcount t1 eq_refl). repeat split; [exact Hm | lia | exact Hf].
    + unfold pollLoop in H. rewrite pollLoop_round in H.
      unfold tryCatch in H. fold pollOnce in H. rewrite E in H.
      discriminate H.
    + destruct later as [|later].
      * rewrite (pollLoop_last_caught _ _ _ _ E) in H.
        destruct (truthy deploymentUrl); [discriminate H|].
        injection H as <- <-. repeat split.
        -- eexists. reflexivity.
        -- apply Hcount. reflexivity.
        -- discriminate.
      * rewrite (pollLoop_caught_goes_on _ _ _ _ _ E) in H by lia.
        destruct (IH ltac:(lia) _ _ _ H) as (Hm & Hc & Hf).
        rewrite Hc, (Hcount t1 eq_refl).
        repeat split; [exact Hm | lia | exact Hf].
Qed.

End PollingRounds.

(** X7. When the first [n] status queries find the deployment pending
    and the next one finds it [READY], with [n] below the number of
    attempts, [waitForDeploymentReady] returns [https://] followed by
    the url of that last report after exactly [n + 1] queries and [n]
    delays of two seconds, one after each pending report. *)
Theorem waitForDeploymentReady_ready_after :
  forall (DAWG_TOKEN : JsVal) (platform : Platform)
         (deploymentId fallback : JsVal) (maxAttempts n : nat) (t : Trace)
         (last : Obj),
    let query := Polling.statusRequest DAWG_TOKEN deploymentId in
    n < maxAttempts ->
    (forall i, i < n ->
       exists o, reports (platform (t ++ pendingRounds query i) query) o
                 /\ pending o) ->
    reports (platform (t ++ pendingRounds query n) query) last ->
    readyState last = Str (js "READY") ->
    Polling.waitForDeploymentReady DAWG_TOKEN platform deploymentId fallback
      maxAttempts t
    = (Normal (js "https://" ++ template (url last)),
       t ++ pendingRounds query n ++ [Fetched query]).
Proof.
  intros tok platform depId fallback maxAttempts n t last query
         Hlt Hpend Hrep Hready.
  unfold Polling.waitForDeploymentReady.
  apply (pollLoop_pending_rounds tok platform depId fallback maxAttempts n
           maxAttempts t last Hlt Hpend Hrep Hready).
Qed.

Lemma waitForDeploymentReady_ready_after_witness :
  Polling.waitForDeploymentReady sampleToken
    (scripted [building; building; building; ready])
    (Str (js "dep1")) undefined 30 []
  = (Normal (js "https://my-site-abc.vercel.app"),
     let query := Polling.statusRequest sampleToken (Str (js "dep1")) in
     pendingRounds query 3 ++ [Fetched query]).
Proof.
  refine (waitForDeploymentReady_ready_after sampleToken
            (scripted [building; building; building; ready])
            (Str (js "dep1")) undefined 30 3 []
            (sampleDeployment "READY" undefined) _ _ _ _).
  - lia.
  - intros i Hi. exists (sampleDeployment "BUILDING" undefined).
    destruct i as [|[|[|i]]]; [| | |lia];
      (split; [eexists; repeat split | repeat split]).
  - eexists. repeat split.
  - reflexivity.
Defined.

(** X8. A status query answered with a status that is not 2xx counts
    as an attempt and is followed by the next one without a delay:
    when every query is answered that way, the function makes
    [maxAttempts] queries in a row, no delay, and throws the timeout
    error that follows the loop, also when a fallback URL was given. *)
Theorem waitForDeploymentReady_status_checks_fail :
  forall (DAWG_TOKEN : JsVal) (platform : Platform)
         (deploymentId fallback : JsVal) (maxAttempts : nat) (t : Trace),
    let query := Polling.statusRequest DAWG_TOKEN deploymentId in
    (forall t', exists r, refuses (platform t' query) r) ->
    Polling.waitForDeploymentReady DAWG_TOKEN platform deploymentId fallback
      maxAttempts t
    = (Throw (mkError (js "Deployment timeout: Maximum attempts reached")),
       t ++ repeat (Fetched query) maxAttempts).
Proof.
  intros tok platform depId fallback maxAttempts t query Hall.
  unfold Polling.waitForDeploymentReady.
  apply (pollLoop_all_refused tok platform depId fallback maxAttempts
           maxAttempts Hall).
Qed.

Lemma waitForDeploymentReady_status_checks_fail_witness :
  Polling.waitForDeploymentReady sampleToken
    (always (replyText 503 "unavailable"))
    (Str (js "dep1")) (Str (js "my-site-abc.vercel.app")) 3 []
  = (Throw (mkError (js "Deployment timeout: Maximum attempts reached")),
     repeat (Fetched (Polling.statusRequest sampleToken (Str (js "dep1")))) 3).
Proof.
  refine (waitForDeploymentReady_status_checks_fail sampleToken
            (always (replyText 503 "unavailable"))
            (Str (js "dep1")) (Str (js "my-site-abc.vercel.app")) 3 [] _).
  intros t'. eexists. split; reflexivity.
Defined.

(** X9. When the platform cannot be reached for any status query
    ([fetch] rejects each time) and there is at least one attempt, the
    function makes [maxAttempts] queries without a delay; it then
    returns [https://] followed by the fallback URL when there is one,
    and otherwise throws a timeout error that carries the message of
    the last rejection. *)
Theorem waitForDeploymentReady_unreachable :
  forall (DAWG_TOKEN : JsVal) (platform : Platform)
         (deploymentId fallback : JsVal) (maxAttempts : nat) (t : Trace),
    let query := Polling.statusRequest DAWG_TOKEN deploymentId in
    let run := Polling.waitForDeploymentReady DAWG_TOKEN platform
                 deploymentId fallback maxAttempts t in
    1 <= maxAttempts ->
    (forall t', exists e, platform t' query = Throw e) ->
    snd run = t ++ repeat (Fetched query) maxAttempts
    /\ (truthy fallback = true ->
        fst run = Normal (js "https://" ++ template fallback))
    /\ (truthy fallback = false ->
        exists e,
          platform (t ++ repeat (Fetched query) (maxAttempts - 1)) query
            = Throw e
          /\ fst run = Throw (mkError (js "Deployment timeout: " ++ message e))).
Proof.
  intros tok platform depId fallback maxAttempts t query run Hmax Hall.
  subst run. unfold Polling.waitForDeploymentReady.
  destruct maxAttempts as [|later]; [lia|].
  destruct (pollLoop_all_rejected tok platform depId fallback (S later) later
              Hall ltac:(lia) t) as (e & He & Hrun).
  fold query in Hrun, He. rewrite Hrun.
  replace (S later - 1) with later by lia.
  destruct (truthy fallback); repeat split; try discriminate.
  intros _. exists e. split; [exact He | reflexivity].
Qed.

Lemma waitForDeploymentReady_unreachable_witness :
  Polling.waitForDeploymentReady sampleToken (always networkDown)
    (Str (js "dep1")) (Str (js "my-site-abc.vercel.app")) 30 []
  = (Normal (js "https://my-site-abc.vercel.app"),
     repeat (Fetched (Polling.statusRequest sampleToken (Str (js "dep1")))) 30).
Proof.
  pose proof (waitForDeploymentReady_unreachable sampleToken (always networkDown)
                (Str (js "dep1")) (Str (js "my-site-abc.vercel.app")) 30 [])
    as H.
  cbv zeta in H.
  destruct H as (Htrace & Hfallback & _).
  - lia.
  - intros t'. eexists. reflexivity.
  - rewrite (surjective_pairing (Polling.waitForDeploymentReady _ _ _ _ _ _)).
    rewrite Htrace, (Hfallback eq_refl). reflexivity.
Defined.

(** X10. Every error that leaves [waitForDeploymentReady] is a timeout
    error: its message starts with ["Deployment timeout: "], and by
    then the function has made exactly [maxAttempts] queries.  When a
    fallback URL was given, the only error possible is
    ["Deployment timeout: Maximum attempts reached"]. *)
Theorem waitForDeploymentReady_only_times_out :
  forall (DAWG_TOKEN : JsVal) (platform : Platform)
         (deploymentId fallback : JsVal) (maxAttempts : nat)
         (t t' : Trace) (e : Error),
    Polling.waitForDeploymentReady DAWG_TOKEN platform deploymentId fallback
      maxAttempts t = (Throw e, t') ->
    (exists detail, message e = js "Deployment timeout: " ++ detail)
    /\ fetchCount t' = fetchCount t + maxAttempts
    /\ (truthy fallback = true ->
        message e = js "Deployment timeout: Maximum attempts reached").
Proof.
  intros tok platform depId fallback maxAttempts t t' e H.
  unfold Polling.waitForDeploymentReady in H.
  apply (pollLoop_throws_timeout tok platform depId fallback maxAttempts
           maxAttempts (le_n _) t t' e H).
Qed.

Lemma waitForDeploymentReady_only_times_out_witness :
  exists detail,
    js "Deployment timeout: Deployment was canceled"
    = js "Deployment timeout: " ++ detail.
Proof.
  refine (proj1 (waitForDeploymentReady_only_times_out sampleToken
            (scripted [building;
                       replyJson 200 (sampleDeployment "CANCELED" undefined)])
            (Str (js "dep1")) undefined 2 []
            [Fetched (Polling.statusRequest sampleToken (Str (js "dep1")));
             Slept 2000;
             Fetched (Polling.statusRequest sampleToken (Str (js "dep1")))]
            (mkError (js "Deployment timeout: Deployment was canceled")) _)).
  vm_compute. reflexivity.
Defined.



(** ** What the functions do to the outside, whatever the platform *)

Lemma fetchCount_app (a b : Trace) :
  fetchCount (a ++ b) = fetchCount a + fetchCount b.
Proof. unfold fetchCount. rewrite filter_app, length_app. reflexivity. Qed.

Lemma sleepCount_app (a b : Trace) :
  sleepCount (a ++ b) = sleepCount a + sleepCount b.
Proof. unfold sleepCount. rewrite filter_app, length_app. reflexivity. Qed.

Lemma within_nil (f s : nat) (good : Event -> Prop) : within f s good [].
Proof. repeat split; [constructor | apply Nat.le_0_l | apply Nat.le_0_l]. Qed.

Lemma within_app (f1 s1 f2 s2 : nat) (good : Event -> Prop) (a b : Trace) :
  within f1 s1 good a -> within f2 s2 good b ->
  within (f1 + f2) (s1 + s2) good (a ++ b).
Proof.
  intros (Ga & Fa & Sa) (Gb & Fb & Sb). repeat split.
  - apply Forall_app. split; assumption.
  - rewrite fetchCount_app. lia.
  - rewrite sleepCount_app. lia.
Qed.

Lemma within_weaken (f s f' s' : nat) (good : Event -> Prop) (a : Trace) :
  f <= f' -> s <= s' -> within f s good a -> within f' s' good a.
Proof. intros Hf Hs (G & F & S). repeat split; [exact G | lia | lia]. Qed.

Section Appends.

Context {A B : Type}.

Lemma appends_weaken (m : Eff A) (Q Q' : Trace -> Prop) :
  (forall added, Q added -> Q' added) -> appends m Q -> appends m Q'.
Proof.
  intros HQ H t. destruct (H t) as (added & E & Hq).
  exists added. split; [exact E | apply HQ, Hq].
Qed.

Lemma appends_bind (m : Eff A) (k : A -> Eff B) (Q1 Q2 Q : Trace -> Prop) :
  appends m Q1 -> (forall a, appends (k a) Q2) ->
  (forall a b, Q1 a -> Q2 b -> Q (a ++ b)) ->
  (forall a, Q1 a -> Q a) ->
  appends (bind m k) Q.
Proof.
  intros Hm Hk Hcomb Hthrow t. unfold bind.
  destruct (Hm t) as (a1 & E1 & Q1a).
  destruct (m t) as [[a|e] t1]; cbn [snd] in E1; subst t1.
  - destruct (Hk a (t ++ a1)) as (a2 & E2 & Q2a).
    exists (a1 ++ a2). rewrite E2, app_assoc. split; [reflexivity|].
    apply Hcomb; assumption.
  - exists a1. split; [reflexivity | apply Hthrow, Q1a].
Qed.

Lemma appends_tryCatch (m : Eff A) (handler : Error -> Eff A)
    (Q1 Q2 Q : Trace -> Prop) :
  appends m Q1 -> (forall e, appends (handler e) Q2) ->
  (forall a b, Q1 a -> Q2 b -> Q (a ++ b)) ->
  (forall a, Q1 a -> Q a) ->
  appends (tryCatch m handler) Q.
Proof.
  intros Hm Hh Hcomb Hnormal t. unfold tryCatch.
  destruct (Hm t) as (a1 & E1 & Q1a).
  destruct (m t) as [[a|e] t1]; cbn [snd] in E1; subst t1.
  - exists a1. split; [reflexivity | apply Hnormal, Q1a].
  - destruct (Hh e (t ++ a1)) as (a2 & E2 & Q2a).
    exists (a1 ++ a2). rewrite E2, app_assoc. split; [reflexivity|].
    apply Hcomb; assumption.
Qed.

Variable good : Event -> Prop.

Lemma emits_ret (a : A) (f s : nat) : emits (ret a) f s good.
Proof. intros t. exists []. rewrite app_nil_r. split; [reflexivity | apply within_nil]. Qed.

Lemma emits_throw (e : Error) (f s : nat) : emits (@throw A e) f s good.
Proof. intros t. exists []. rewrite app_nil_r. split; [reflexivity | apply within_nil]. Qed.

Lemma emits_lift (c : Completion A) (f s : nat) : emits (lift c) f s good.
Proof. intros t. exists []. rewrite app_nil_r. split; [reflexivity | apply within_nil]. Qed.

Lemma emits_weaken (m : Eff A) (f s f' s' : nat) :
  emits m f s good -> f <= f' -> s <= s' -> emits m f' s' good.
Proof.
  intros H Hf Hs. eapply appends_weaken; [|exact H].
  intros added. apply within_weaken; assumption.
Qed.

Lemma emits_bind (f1 s1 f2 s2 : nat) (m : Eff A) (k : A -> Eff B) :
  emits m f1 s1 good -> (forall a, emits (k a) f2 s2 good) ->
  emits (bind m k) (f1 + f2) (s1 + s2) good.
Proof.
  intros Hm Hk. eapply appends_bind; [exact Hm | exact Hk | |].
  - intros a b. apply within_app.
  - intros a. apply within_weaken; lia.
Qed.

Lemma emits_tryCatch (f1 s1 f2 s2 : nat) (m : Eff A) (handler : Error -> Eff A) :
  emits m f1 s1 good -> (forall e, emits (handler e) f2 s2 good) ->
  emits (tryCatch m handler) (f1 + f2) (s1 + s2) good.
Proof.
  intros Hm Hh. eapply appends_tryCatch; [exact Hm | exact Hh | |].
  - intros a b. apply within_app.
  - intros a. apply within_weaken; lia.
Qed.

Lemma emits_lift_bind (c : Completion A) (k : A -> Eff B) (f s : nat) :
  (forall a, emits (k a) f s good) -> emits (bind (lift c) k) f s good.
Proof. intros Hk. apply (emits_bind 0 0 f s); [apply emits_lift | exact Hk]. Qed.

End Appends.

Lemma emits_fetch_bind (B : Type) (good : Event -> Prop) (platform : Platform)
    (request : FetchRequest) (k : Response -> Eff B) (f s : nat) :
  good (Fetched request) ->
  (forall r, emits (k r) f s good) ->
  emits (bind (fetch platform request) k) (S f) s good.
Proof.
  intros Hg Hk. apply (emits_bind good 1 0 f s); [|exact Hk].
  intros t. exists [Fetched request]. split; [reflexivity|].
  repeat split; [repeat constructor; exact Hg | apply le_n | apply Nat.le_0_l].
Qed.

Lemma emits_sleep_bind (B : Type) (good : Event -> Prop)
    (ms : N) (k : unit -> Eff B) (f s : nat) :
  good (Slept ms) ->
  (forall u, emits (k u) f s good) ->
  emits (bind (sleep ms) k) f (S s) good.
Proof.
  intros Hg Hk. apply (emits_bind good 0 1 f s); [|exact Hk].
  intros t. exists [Slept ms]. split; [reflexivity|].
  repeat split; [repeat constructor; exact Hg | apply Nat.le_0_l | apply le_n].
Qed.

(** The leaves and the binds a proof of [emits] runs into. *)
Ltac emits_leaf :=
  first [ apply emits_ret | apply emits_throw | apply emits_lift ].

Ltac emits_walk :=
  repeat first
    [ emits_leaf
    | apply emits_lift_bind; intros ?
    | apply emits_fetch_bind; [repeat split | intros ?]
    | apply emits_sleep_bind; [reflexivity | intros ?] ].

Section PollingEffects.

Variable toLowerCase : jsstring -> jsstring.
Variable DAWG_TOKEN : JsVal.
Variable platform : Platform.
Variable date : jsstring.

Let good := platformEvent DAWG_TOKEN.

Lemma polling_createOrGetProject_emits (projectName : jsstring) :
  emits (Polling.createOrGetProject DAWG_TOKEN platform projectName) 2 0 good.
Proof.
  unfold Polling.createOrGetProject.
  apply (emits_tryCatch good 2 0 0 0); [|intros e; emits_leaf].
  apply emits_fetch_bind; [split; reflexivity | intros cr]. cbv zeta.
  destruct (ok cr); [emits_leaf|].
  destruct (status cr =? 409)%N; [|emits_leaf].
  apply emits_fetch_bind; [split; reflexivity | intros gr].
  destruct (ok gr); emits_leaf.
Qed.

Lemma polling_createOrGetProject_first (projectName : jsstring) :
  appends (Polling.createOrGetProject DAWG_TOKEN platform projectName)
    (startsWithCall (Polling.createProjectRequest DAWG_TOKEN projectName)).
Proof.
  intros t.
  unfold Polling.createOrGetProject, tryCatch, bind, fetch, lift, throw.
  destruct (platform t _) as [cr|e];
    [|eexists; split; [reflexivity | eexists; reflexivity]].
  destruct (ok cr);
    [destruct (json cr); eexists; split; try reflexivity; eexists; reflexivity|].
  destruct (status cr =? 409)%N;
    [|eexists; split; [reflexivity | eexists; reflexivity]].
  destruct (platform _ _) as [gr|e]; [destruct (ok gr); [destruct (json gr)|]|];
    rewrite <- app_assoc; eexists; (split; [reflexivity | eexists; reflexivity]).
Qed.

Lemma polling_createDeployment_emits (project : Json) (siteName : jsstring) :
  emits (Polling.createDeployment DAWG_TOKEN platform date project siteName)
    1 0 good.
Proof.
  unfold Polling.createDeployment.
  apply (emits_tryCatch good 1 0 0 0); [|intros e; emits_leaf].
  apply emits_lift_bind; intros projectName.
  apply emits_lift_bind; intros projectId.
  apply emits_fetch_bind; [split; reflexivity | intros r].
  destruct (negb (ok r)); emits_leaf.
Qed.

Lemma polling_pollOnce_emits (deploymentId : JsVal) :
  emits (Polling.pollOnce DAWG_TOKEN platform deploymentId) 1 1 good.
Proof.
  unfold Polling.pollOnce.
  apply emits_fetch_bind; [split; reflexivity | intros r].
  destruct (negb (ok r)); [emits_leaf|].
  apply emits_lift_bind; intros deployment.
  apply emits_lift_bind; intros state.
  destruct (strictEq state (js "READY")); [emits_walk|].
  destruct (strictEq state (js "ERROR")); [emits_walk|].
  destruct (strictEq state (js "CANCELED")); emits_walk.
Qed.

Lemma polling_waitForDeploymentReady_emits
    (deploymentId deploymentUrl : JsVal) (maxAttempts : nat) :
  emits (Polling.waitForDeploymentReady DAWG_TOKEN platform
           deploymentId deploymentUrl maxAttempts)
    maxAttempts maxAttempts good.
Proof.
  unfold Polling.waitForDeploymentReady.
  generalize maxAttempts at 2 3 4. intros remaining.
  induction remaining as [|later IH]; cbn [Polling.pollLoop]; [emits_leaf|].
  apply (emits_bind good 1 1 later later).
  - apply (emits_tryCatch good 1 1 0 0);
      [apply polling_pollOnce_emits|].
    intros e. unfold Polling.pollCatch.
    destruct (_ =? _); [destruct (truthy deploymentUrl)|]; emits_leaf.
  - intros [|value]; [exact IH | emits_leaf].
Qed.

(** What [handlerTry] does once the project is resolved. *)
Ltac after_project :=
  apply emits_lift_bind; intros ?;
  apply emits_lift_bind; intros ?;
  apply (emits_bind good 1 0 30 30);
    [apply polling_createDeployment_emits | intros ?];
  apply emits_lift_bind; intros ?;
  apply emits_lift_bind; intros ?;
  apply emits_lift_bind; intros ?;
  apply (emits_bind good 30 30 0 0);
    [apply polling_waitForDeploymentReady_emits | intros ?];
  apply emits_lift_bind; intros ?;
  emits_leaf.

Lemma polling_handlerTry_emits (req : Req) :
  emits (Polling.handlerTry toLowerCase DAWG_TOKEN platform date req) 33 30 good.
Proof.
  unfold Polling.handlerTry.
  destruct (negb (truthy DAWG_TOKEN)); [emits_leaf|]. cbv zeta.
  destruct (negb (includes _ _)); [emits_leaf|].
  apply emits_lift_bind; intros fields.
  destruct (projectName fields) as [| |[|c s]]; try emits_leaf. cbv zeta.
  apply (emits_bind good 2 0 31 30);
    [apply polling_createOrGetProject_emits | intros project].
  after_project.
Qed.

Lemma polling_handlerTry_first (req : Req) :
  appends (Polling.handlerTry toLowerCase DAWG_TOKEN platform date req)
    (fun added =>
       added = []
       \/ exists fields c s,
            body req = Some fields
            /\ projectName fields = Str (c :: s)
            /\ startsWithCall
                 (Polling.createProjectRequest DAWG_TOKEN
                    (cleanProjectName toLowerCase (c :: s)))
                 added).
Proof.
  assert (Hnone : forall (m : Eff Res) (Q : Trace -> Prop),
             emits m 0 0 good -> appends m (fun added => added = [] \/ Q added)).
  { intros m Q H t. destruct (H t) as (added & E & _ & Hf & Hs).
    exists added. split; [exact E|]. left.
    destruct added as [|[r|ms] added]; [reflexivity| |].
    - unfold fetchCount in Hf. simpl in Hf. lia.
    - unfold sleepCount in Hs. simpl in Hs. lia. }
  unfold Polling.handlerTry.
  destruct (negb (truthy DAWG_TOKEN)); [apply Hnone; emits_leaf|]. cbv zeta.
  destruct (negb (includes _ _)); [apply Hnone; emits_leaf|].
  unfold bind at 1, lift at 1.
  destruct (body req) as [fields|] eqn:Hbody; cbn [destructure];
    [|intros t; exists []; rewrite app_nil_r; split; [|left]; reflexivity].
  destruct (projectName fields) as [| |[|c s]] eqn:Hname;
    try (apply Hnone; emits_leaf).
  cbv zeta.
  eapply appends_bind.
  - apply polling_createOrGetProject_first.
  - intros project.
    apply (appends_weaken _ (within 31 30 good) (fun _ => True));
      [intros; exact I|].
    change (emits
      (_ <- lift (prop name "name" project) ;;
       _ <- lift (prop id "id" project) ;;
       deployment <- Polling.createDeployment DAWG_TOKEN platform date project
                       (orString (siteName fields)
                          (cleanProjectName toLowerCase (c :: s))) ;;
       _ <- lift (prop url "url" deployment) ;;
       deploymentId <- lift (prop id "id" deployment) ;;
       deploymentUrl <- lift (prop url "url" deployment) ;;
       finalUrl <- Polling.waitForDeploymentReady DAWG_TOKEN platform
                     deploymentId deploymentUrl 30 ;;
       projectId <- lift (prop id "id" project) ;;
       ret {| statusCode := 200;
              resBody := Success finalUrl projectId deploymentId
                           (cleanProjectName toLowerCase (c :: s))
                           (orString (siteName fields)
                              (cleanProjectName toLowerCase (c :: s))) |})%eff
      31 30 good).
    after_project.
  - intros a b (rest & ->) _. right. exists fields, c, s.
    split; [reflexivity | split; [exact Hname|]].
    exists (rest ++ b). reflexivity.
  - intros a Ha. right. exists fields, c, s.
    split; [reflexivity | split; [exact Hname | exact Ha]].
Qed.

End PollingEffects.

Section ImmediateEffects.

Variable toLowerCase : jsstring -> jsstring.
Variable VERCEL_TOKEN : JsVal.
Variable platform : Platform.
Variable date : jsstring.

Let good := platformEvent VERCEL_TOKEN.

Lemma immediate_createOrGetProject_emits (projectName : jsstring) :
  emits (Immediate.createOrGetProject VERCEL_TOKEN platform projectName) 2 0 good.
Proof.
  unfold Immediate.createOrGetProject.
  apply (emits_tryCatch good 2 0 0 0); [|intros e; emits_leaf].
  apply emits_fetch_bind; [split; reflexivity | intros cr]. cbv zeta.
  destruct (ok cr); [emits_leaf|].
  destruct (status cr =? 409)%N; [|emits_leaf].
  apply emits_fetch_bind; [split; reflexivity | intros gr].
  destruct (ok gr); emits_leaf.
Qed.

Lemma immediate_createOrGetProject_first (projectName : jsstring) :
  appends (Immediate.createOrGetProject VERCEL_TOKEN platform projectName)
    (startsWithCall (Immediate.createProjectRequest VERCEL_TOKEN projectName)).
Proof.
  intros t.
  unfold Immediate.createOrGetProject, tryCatch, bind, fetch, lift, throw.
  destruct (platform t _) as [cr|e];
    [|eexists; split; [reflexivity | eexists; reflexivity]].
  destruct (ok cr);
    [destruct (json cr); eexists; split; try reflexivity; eexists; reflexivity|].
  destruct (status cr =? 409)%N;
    [|eexists; split; [reflexivity | eexists; reflexivity]].
  destruct (platform _ _) as [gr|e]; [destruct (ok gr); [destruct (json gr)|]|];
    rewrite <- app_assoc; eexists; (split; [reflexivity | eexists; reflexivity]).
Qed.

Lemma immediate_createDeployment_emits (project : Json) (siteName : jsstring) :
  emits (Immediate.createDeployment VERCEL_TOKEN platform date project siteName)
    1 0 good.
Proof.
  unfold Immediate.createDeployment.
  apply emits_lift_bind; intros projectName.
  apply emits_lift_bind; intros projectId.
  apply emits_fetch_bind; [split; reflexivity | intros r].
  destruct (negb (ok r)); emits_leaf.
Qed.

Ltac after_project :=
  apply (emits_bind good 1 0 0 0);
    [apply immediate_createDeployment_emits | intros ?];
  apply emits_lift_bind; intros ?;
  apply emits_lift_bind; intros ?;
  apply emits_lift_bind; intros ?;
  emits_leaf.

Lemma immediate_handlerTry_emits (req : Req) :
  emits (Immediate.handlerTry toLowerCase VERCEL_TOKEN platform date req) 3 0 good.
Proof.
  unfold Immediate.handlerTry.
  apply emits_lift_bind; intros fields.
  destruct (negb (truthy VERCEL_TOKEN)); [emits_leaf|].
  destruct (projectName fields) as [| |[|c s]]; try emits_leaf. cbv zeta.
  apply (emits_bind good 2 0 1 0);
    [apply immediate_createOrGetProject_emits | intros project].
  after_project.
Qed.

Lemma immediate_handlerTry_first (req : Req) :
  appends (Immediate.handlerTry toLowerCase VERCEL_TOKEN platform date req)
    (fun added =>
       added = []
       \/ exists fields c s,
            body req = Some fields
            /\ projectName fields = Str (c :: s)
            /\ startsWithCall
                 (Immediate.createProjectRequest VERCEL_TOKEN
                    (cleanProjectName toLowerCase (c :: s)))
                 added).
Proof.
  assert (Hnone : forall (m : Eff Res) (Q : Trace -> Prop),
             emits m 0 0 good -> appends m (fun added => added = [] \/ Q added)).
  { intros m Q H t. destruct (H t) as (added & E & _ & Hf & Hs).
    exists added. split; [exact E|]. left.
    destruct added as [|[r|ms] added]; [reflexivity| |].
    - unfold fetchCount in Hf. simpl in Hf. lia.
    - unfold sleepCount in Hs. simpl in Hs. lia. }
  unfold Immediate.handlerTry.
  unfold bind at 1, lift at 1.
  destruct (body req) as [fields|] eqn:Hbody; cbn [destructure];
    [|intros t; exists []; rewrite app_nil_r; split; [|left]; reflexivity].
  destruct (negb (truthy VERCEL_TOKEN)); [apply Hnone; emits_leaf|].
  destruct (projectName fields) as [| |[|c s]] eqn:Hname;
    try (apply Hnone; emits_leaf).
  cbv zeta.
  eapply appends_bind.
  - apply immediate_createOrGetProject_first.
  - intros project.
    apply (appends_weaken _ (within 1 0 good) (fun _ => True));
      [intros; exact I|].
    change (emits
      (deployment <- Immediate.createDeployment VERCEL_TOKEN platform date project
                       (orString (siteName fields)
                          (cleanProjectName toLowerCase (c :: s))) ;;
       deploymentUrl <- lift (prop url "url" deployment) ;;
       projectId <- lift (prop id "id" project) ;;
       deploymentId <- lift (prop id "id" deployment) ;;
       ret {| statusCode := 200;
              resBody := Success (js "https://" ++ template deploymentUrl)
                           projectId deploymentId
                           (cleanProjectName toLowerCase (c :: s))
                           (orString (siteName fields)
                              (cleanProjectName toLowerCase (c :: s))) |})%eff
      1 0 good).
    after_project.
  - intros a b (rest & ->) _. right. exists fields, c, s.
    split; [reflexivity | split; [exact Hname|]].
    exists (rest ++ b). reflexivity.
  - intros a Ha. right. exists fields, c, s.
    split; [reflexivity | split; [exact Hname | exact Ha]].
Qed.

End ImmediateEffects.

(** The answer of [handler] is written after the [try] block or its
    [catch], neither of which adds an effect of its own. *)
Lemma handler_appends_polling (toLowerCase : jsstring -> jsstring)
    (DAWG_TOKEN : JsVal) (platform : Platform) (date : jsstring) (req : Req)
    (Q : Trace -> Prop) :
  Q [] ->
  appends (Polling.handlerTry toLowerCase DAWG_TOKEN platform date req) Q ->
  forall t, exists added,
    snd (Polling.handler toLowerCase DAWG_TOKEN platform date req t) = t ++ added
    /\ Q added.
Proof.
  intros Hnil H t. unfold Polling.handler.
  destruct (jsstring_eqb _ _);
    [exists []; rewrite app_nil_r; split; [reflexivity | exact Hnil]|].
  destruct (negb _);
    [exists []; rewrite app_nil_r; split; [reflexivity | exact Hnil]|].
  destruct (H t) as (added & E & HQ). exists added. split; [|exact HQ].
  destruct (Polling.handlerTry _ _ _ _ req t) as [[res|e] t']; exact E.
Qed.

Lemma handler_appends_immediate (toLowerCase : jsstring -> jsstring)
    (VERCEL_TOKEN : JsVal) (platform : Platform) (date : jsstring) (req : Req)
    (Q : Trace -> Prop) :
  Q [] ->
  appends (Immediate.handlerTry toLowerCase VERCEL_TOKEN platform date req) Q ->
  forall t, exists added,
    snd (Immediate.handler toLowerCase VERCEL_TOKEN platform date req t) = t ++ added
    /\ Q added.
Proof.
  intros Hnil H t. unfold Immediate.handler.
  destruct (jsstring_eqb _ _);
    [exists []; rewrite app_nil_r; split; [reflexivity | exact Hnil]|].
  destruct (negb _);
    [exists []; rewrite app_nil_r; split; [reflexivity | exact Hnil]|].
  destruct (H t) as (added & E & HQ). exists added. split; [|exact HQ].
  destruct (Immediate.handlerTry _ _ _ _ req t) as [[res|e] t']; exact E.
Qed.

(** X12. Whatever the request and whatever the platform answers, a run
    of the polling [handler] only adds to the trace: at most 33 calls
    (two to resolve the project, one to deploy, thirty status queries)
    and at most 30 delays of two seconds; every call goes to
    [https://api.vercel.com/] and carries the credential as bearer
    token. *)
Theorem polling_handler_effects :
  forall (toLowerCase : jsstring -> jsstring) (DAWG_TOKEN : JsVal)
         (platform : Platform) (date : jsstring) (req : Req) (t : Trace),
  exists added,
    snd (Polling.handler toLowerCase DAWG_TOKEN platform date req t) = t ++ added
    /\ within 33 30 (platformEvent DAWG_TOKEN) added.
Proof.
  intros lc token platform date req.
  apply handler_appends_polling; [apply within_nil|].
  apply polling_handlerTry_emits.
Qed.

(** X13. Whatever the request and whatever the platform answers, a run
    of the [handler] that answers at once makes at most three calls
    (two to resolve the project, one to deploy) and never waits; every
    call goes to [https://api.vercel.com/] and carries the credential
    as bearer token. *)
Theorem immediate_handler_effects :
  forall (toLowerCase : jsstring -> jsstring) (VERCEL_TOKEN : JsVal)
         (platform : Platform) (date : jsstring) (req : Req) (t : Trace),
  exists added,
    snd (Immediate.handler toLowerCase VERCEL_TOKEN platform date req t) = t ++ added
    /\ within 3 0 (platformEvent VERCEL_TOKEN) added.
Proof.
  intros lc token platform date req.
  apply handler_appends_immediate; [apply within_nil|].
  apply immediate_handlerTry_emits.
Qed.

(** X14. The raw project name never leaves the function: if a run of
    [handler] calls the platform at all, then the request had a
    non-empty [projectName], and the first call is the [POST] that
    creates the project under the sanitized name.  Both variants. *)
Theorem handler_first_call_creates_sanitized_project :
  forall (toLowerCase : jsstring -> jsstring) (token : JsVal)
         (platform : Platform) (date : jsstring) (req : Req) (t : Trace),
    (exists added,
        snd (Polling.handler toLowerCase token platform date req t) = t ++ added
        /\ (added = []
            \/ exists fields c s,
                 body req = Some fields
                 /\ projectName fields = Str (c :: s)
                 /\ startsWithCall
                      (Polling.createProjectRequest token
                         (cleanProjectName toLowerCase (c :: s)))
                      added))
    /\
    (exists added,
        snd (Immediate.handler toLowerCase token platform date req t) = t ++ added
        /\ (added = []
            \/ exists fields c s,
                 body req = Some fields
                 /\ projectName fields = Str (c :: s)
                 /\ startsWithCall
                      (Immediate.createProjectRequest token
                         (cleanProjectName toLowerCase (c :: s)))
                      added)).
Proof.
  intros lc token platform date req t. split.
  - apply (handler_appends_polling lc token platform date req
             (fun added => added = [] \/ _));
      [left; reflexivity | apply polling_handlerTry_first].
  - apply (handler_appends_immediate lc token platform date req
             (fun added => added = [] \/ _));
      [left; reflexivity | apply immediate_handlerTry_first].
Qed.

Section PollingWork.

Variable DAWG_TOKEN : JsVal.
Variable platform : Platform.
Variables deploymentId deploymentUrl : JsVal.

Let query := Polling.statusRequest DAWG_TOKEN deploymentId.
Let pollOnce := Polling.pollOnce DAWG_TOKEN platform deploymentId.
Let pollLoop := Polling.pollLoop DAWG_TOKEN platform deploymentId deploymentUrl.

Let work (limit : nat) (added : Trace) : Prop :=
  Forall (fun ev => ev = Fetched query \/ ev = Slept 2000) added
  /\ fetchCount added <= limit
  /\ sleepCount added <= fetchCount added.

Lemma work_round (limit : nat) (round added : Trace) :
  round = [Fetched query] \/ round = [Fetched query; Slept 2000] ->
  work limit added -> work (S limit) (round ++ added).
Proof.
  intros Hround (G & F & S).
  assert (Hr : Forall (fun ev => ev = Fetched query \/ ev = Slept 2000) round
               /\ fetchCount round = 1 /\ sleepCount round <= 1).
  { destruct Hround as [-> | ->];
      (split; [|split; [reflexivity | unfold sleepCount; simpl; lia]]);
      repeat (constructor; [first [left; reflexivity | right; reflexivity]|]);
      constructor. }
  destruct Hr as (Gr & Fr & Sr).
  repeat split.
  - apply Forall_app. split; assumption.
  - rewrite fetchCount_app. lia.
  - rewrite sleepCount_app, fetchCount_app. lia.
Qed.

Lemma pollLoop_work (maxAttempts remaining : nat) :
  forall t, exists added,
    snd (pollLoop maxAttempts remaining t) = t ++ added /\ work remaining added.
Proof.
  induction remaining as [|later IH]; intros t.
  - exists []. rewrite app_nil_r. split; [reflexivity|].
    repeat split; [constructor | apply le_n | apply le_n].
  - assert (Hnext : forall round,
               round = [Fetched query] \/ round = [Fetched query; Slept 2000] ->
               exists added,
                 snd (pollLoop maxAttempts later (t ++ round)) = t ++ added
                 /\ work (S later) added).
    { intros round Hround.
      destruct (IH (t ++ round)) as (added & E & W).
      exists (round ++ added). rewrite E, app_assoc.
      split; [reflexivity | apply work_round; assumption]. }
    assert (Hstop : exists added,
               t ++ [Fetched query] = t ++ added /\ work (S later) added).
    { exists [Fetched query]. split; [reflexivity|].
      rewrite <- (app_nil_r [Fetched query]).
      apply work_round; [left; reflexivity|].
      repeat split; [constructor | apply Nat.le_0_l | apply le_n]. }
    unfold pollLoop. rewrite pollLoop_round. fold pollLoop.
    unfold tryCatch. fold pollOnce.
    destruct (pollOnce_trace DAWG_TOKEN platform deploymentId t) as [E|E];
      fold pollOnce query in E.
    + rewrite E. apply Hnext. right. reflexivity.
    + destruct (pollOnce t) as [[[|value]|e] t1]; cbn [snd] in E; subst t1.
      * apply Hnext. left. reflexivity.
      * exact Hstop.
      * unfold Polling.pollCatch.
        destruct (_ =? _); [destruct (truthy deploymentUrl)|];
          [exact Hstop | exact Hstop |].
        apply Hnext. left. reflexivity.
Qed.

End PollingWork.

(** X15. Whatever the platform answers, [waitForDeploymentReady] only
    adds status queries for the given deployment and delays of two
    seconds to the trace: at most [maxAttempts] queries, and never
    more delays than queries.  With no attempt allowed it calls
    nothing. *)
Theorem waitForDeploymentReady_work_is_bounded :
  forall (DAWG_TOKEN : JsVal) (platform : Platform)
         (deploymentId fallback : JsVal) (maxAttempts : nat) (t : Trace),
    let query := Polling.statusRequest DAWG_TOKEN deploymentId in
    exists added,
      snd (Polling.waitForDeploymentReady DAWG_TOKEN platform deploymentId
             fallback maxAttempts t) = t ++ added
      /\ Forall (fun ev => ev = Fetched query \/ ev = Slept 2000) added
      /\ fetchCount added <= maxAttempts
      /\ sleepCount added <= fetchCount added.
Proof.
  intros token platform depId fallback maxAttempts t query.
  unfold Polling.waitForDeploymentReady.
  apply (pollLoop_work token platform depId fallback maxAttempts maxAttempts t).
Qed.

(** ** The handler: success, other methods, status codes *)

Lemma jsstring_eqb_eq (a b : jsstring) : jsstring_eqb a b = true <-> a = b.
Proof.
  revert b. induction a as [|x a IH]; intros [|y b]; simpl;
    try (split; [discriminate | discriminate]); [split; reflexivity|].
  rewrite andb_true_iff, N.eqb_eq, IH. split.
  - intros (-> & ->). reflexivity.
  - intros E. injection E as -> ->. split; reflexivity.
Qed.

Lemma jsstring_eqb_neq (a b : jsstring) : a <> b -> jsstring_eqb a b = false.
Proof.
  intros H. destruct (jsstring_eqb a b) eqn:E; [|reflexivity].
  exfalso. apply H, jsstring_eqb_eq, E.
Qed.

(** X16. A request whose method is not [POST] touches nothing: the
    answer is [200] without a body for [OPTIONS] and
    [405 {error: 'Method not allowed'}] for any other method, and no
    call is made, whatever the body and whether or not the credential is
    set.  Both variants. *)
Theorem handler_other_methods :
  forall (toLowerCase : jsstring -> jsstring) (token : JsVal)
         (platform : Platform) (date : jsstring) (req : Req) (t : Trace),
    (method req = js "OPTIONS" ->
     Polling.handler toLowerCase token platform date req t
       = ({| statusCode := 200; resBody := NoBody |}, t)
     /\ Immediate.handler toLowerCase token platform date req t
        = ({| statusCode := 200; resBody := NoBody |}, t))
    /\
    (method req <> js "OPTIONS" -> method req <> js "POST" ->
     Polling.handler toLowerCase token platform date req t
       = ({| statusCode := 405;
             resBody := ErrorOnly (js "Method not allowed") |}, t)
     /\ Immediate.handler toLowerCase token platform date req t
        = ({| statusCode := 405;
              resBody := ErrorOnly (js "Method not allowed") |}, t)).
Proof.
  intros lc token platform date req t. split.
  - intros Ho. unfold Polling.handler, Immediate.handler. rewrite Ho.
    change (jsstring_eqb (js "OPTIONS") (js "OPTIONS")) with true.
    split; reflexivity.
  - intros Ho Hp. unfold Polling.handler, Immediate.handler.
    rewrite (jsstring_eqb_neq _ _ Ho), (jsstring_eqb_neq _ _ Hp).
    split; reflexivity.
Qed.

Lemma handler_other_methods_witness :
  Polling.handler toLowerCaseAscii undefined (always networkDown) sampleDate
    {| method := js "GET"; contentTypeHeader := undefined; body := None |} []
  = ({| statusCode := 405; resBody := ErrorOnly (js "Method not allowed") |}, []).
Proof.
  refine (proj1 (proj2 (handler_other_methods toLowerCaseAscii undefined
            (always networkDown) sampleDate
            {| method := js "GET"; contentTypeHeader := undefined; body := None |}
            []) _ _)).
  - vm_compute. discriminate.
  - vm_compute. discriminate.
Defined.

Section Returns.

Variable P : Res -> Prop.

Lemma returnsOnly_ret (res : Res) : P res -> returnsOnly P (ret res).
Proof. intros Hs t res' t' H. injection H as <- _. exact Hs. Qed.

Lemma returnsOnly_throw (e : Error) : returnsOnly P (throw e).
Proof. intros t res t' H. discriminate H. Qed.

Lemma returnsOnly_bind (A : Type) (m : Eff A) (k : A -> Eff Res) :
  (forall a, returnsOnly P (k a)) -> returnsOnly P (bind m k).
Proof.
  intros Hk t res t' H. unfold bind in H.
  destruct (m t) as [[a|e1] t1].
  - eapply Hk, H.
  - discriminate H.
Qed.

End Returns.

Ltac returns_only :=
  repeat first
    [ apply returnsOnly_throw
    | apply returnsOnly_ret; first [reflexivity | left; reflexivity | right; reflexivity]
    | apply returnsOnly_bind; intros ? ].

(** X17. The status always fits the body: [{success: true, ...}] comes
    with 200, [{success: false, error}] with 400 or 500, the bare
    [{error}] with 405 and the empty answer with 200, for every request
    and whatever the platform does.  Both variants. *)
Theorem handler_status_fits_body :
  forall (toLowerCase : jsstring -> jsstring) (token : JsVal)
         (platform : Platform) (date : jsstring) (req : Req) (t : Trace),
    statusFits (fst (Polling.handler toLowerCase token platform date req t))
    /\ statusFits (fst (Immediate.handler toLowerCase token platform date req t)).
Proof.
  intros lc token platform date req t. split.
  - unfold Polling.handler.
    destruct (jsstring_eqb _ _); [reflexivity|].
    destruct (negb _); [reflexivity|].
    destruct (Polling.handlerTry lc token platform date req t)
      as [[res|e] t'] eqn:E; [|right; reflexivity].
    revert t res t' E.
    change (returnsOnly statusFits (Polling.handlerTry lc token platform date req)).
    unfold Polling.handlerTry.
    destruct (negb (truthy token)); [returns_only|]. cbv zeta.
    destruct (negb (includes _ _)); [returns_only|].
    apply returnsOnly_bind. intros fields.
    destruct (projectName fields) as [| |[|c s]]; returns_only.
  - unfold Immediate.handler.
    destruct (jsstring_eqb _ _); [reflexivity|].
    destruct (negb _); [reflexivity|].
    destruct (Immediate.handlerTry lc token platform date req t)
      as [[res|e] t'] eqn:E; [|right; reflexivity].
    revert t res t' E.
    change (returnsOnly statusFits (Immediate.handlerTry lc token platform date req)).
    unfold Immediate.handlerTry.
    apply returnsOnly_bind. intros fields.
    destruct (negb (truthy token)); [returns_only|].
    destruct (projectName fields) as [| |[|c s]]; returns_only.
Qed.

Section Submission.

Variable token : JsVal.
Variable platform : Platform.
Variable date : jsstring.

Lemma polling_createOrGetProject_reports (projectName : jsstring) (t : Trace)
    (project : Obj) :
  reports (platform t (Polling.createProjectRequest token projectName)) project ->
  Polling.createOrGetProject token platform projectName t
  = (Normal (JsonObj project),
     t ++ [Fetched (Polling.createProjectRequest token projectName)]).
Proof.
  intros (r & Hr & Hok & Hjson).
  unfold Polling.createOrGetProject, tryCatch, bind, fetch, lift.
  rewrite Hr, Hok, Hjson. reflexivity.
Qed.

Lemma immediate_createOrGetProject_reports (projectName : jsstring) (t : Trace)
    (project : Obj) :
  reports (platform t (Immediate.createProjectRequest token projectName)) project ->
  Immediate.createOrGetProject token platform projectName t
  = (Normal (JsonObj project),
     t ++ [Fetched (Immediate.createProjectRequest token projectName)]).
Proof.
  intros (r & Hr & Hok & Hjson).
  unfold Immediate.createOrGetProject, tryCatch, bind, fetch, lift.
  rewrite Hr, Hok, Hjson. reflexivity.
Qed.

Lemma polling_createDeployment_reports (project : Obj) (siteName : jsstring)
    (t : Trace) (deployment : Obj) :
  let request := Polling.createDeploymentRequest token
                   (Polling.deploymentPayload date (name project) (id project)
                      siteName) in
  reports (platform t request) deployment ->
  Polling.createDeployment token platform date (JsonObj project) siteName t
  = (Normal (JsonObj deployment), t ++ [Fetched request]).
Proof.
  intros request (r & Hr & Hok & Hjson).
  unfold Polling.createDeployment, tryCatch, bind, fetch, lift.
  cbn [prop]. fold request. rewrite Hr, Hok, Hjson. reflexivity.
Qed.

Lemma immediate_createDeployment_reports (project : Obj) (siteName : jsstring)
    (t : Trace) (deployment : Obj) :
  let request := Immediate.createDeploymentRequest token
                   (Immediate.deploymentPayload date (name project) (id project)
                      siteName) in
  reports (platform t request) deployment ->
  Immediate.createDeployment token platform date (JsonObj project) siteName t
  = (Normal (JsonObj deployment), t ++ [Fetched request]).
Proof.
  intros request (r & Hr & Hok & Hjson).
  unfold Immediate.createDeployment, bind, fetch, lift.
  cbn [prop]. fold request. rewrite Hr, Hok, Hjson. reflexivity.
Qed.

End Submission.

(** X18. The variant that answers at once: on a [POST] request with a
    non-empty project name and the credential set, when the platform
    creates the project and accepts the deployment, the answer is
    [200 {success: true, ...}] after exactly these two calls.  Its
    [url] is [https://] followed by the url of the new deployment,
    whatever the ready state of that deployment is; [projectName] is
    the sanitized name, and [siteName] the one of the request or, when
    that is missing or empty, the sanitized name. *)
Theorem immediate_handler_succeeds :
  forall (toLowerCase : jsstring -> jsstring) (token : JsVal)
         (platform : Platform) (date : jsstring)
         (req : Req) (fields : ReqBody) (c : codeunit) (s : jsstring)
         (t : Trace) (project deployment : Obj),
    let clean := cleanProjectName toLowerCase (c :: s) in
    let site := orString (siteName fields) clean in
    let create := Immediate.createProjectRequest token clean in
    let deploy := Immediate.createDeploymentRequest token
                    (Immediate.deploymentPayload date (name project)
                       (id project) site) in
    method req = js "POST" ->
    body req = Some fields ->
    truthy token = true ->
    projectName fields = Str (c :: s) ->
    reports (platform t create) project ->
    reports (platform (t ++ [Fetched create]) deploy) deployment ->
    Immediate.handler toLowerCase token platform date req t
    = ({| statusCode := 200;
          resBody := Success (js "https://" ++ template (url deployment))
                       (id project) (id deployment) clean site |},
       t ++ [Fetched create; Fetched deploy]).
Proof.
  intros lc token platform date req fields c s t project deployment
         clean site create deploy Hm Hbody Htok Hname Hcreate Hdeploy.
  rewrite immediate_handler_post by assumption.
  unfold Immediate.handlerTry, bind at 1, lift at 1.
  rewrite Hbody, Htok. cbn [destructure negb]. rewrite Hname. cbv zeta.
  fold clean. fold site. unfold bind at 1.
  rewrite (immediate_createOrGetProject_reports token platform clean t project Hcreate).
  fold create. unfold bind at 1.
  rewrite (immediate_createDeployment_reports token platform date project site
             _ deployment Hdeploy).
  fold deploy. unfold bind, lift, ret. cbn [prop].
  rewrite <- app_assoc. reflexivity.
Qed.

Lemma immediate_handler_succeeds_witness :
  Immediate.handler toLowerCaseAscii sampleToken
    (scripted [replyJson 200 sampleProject;
               replyJson 200 (sampleDeployment "ERROR" (Str (js "Build failed")))])
    sampleDate (postRequest (Str (js "My Site")) undefined) []
  = ({| statusCode := 200;
        resBody := Success (js "https://my-site-abc.vercel.app")
                     (Str (js "prj_1")) (Str (js "dep1"))
                     (js "my-site") (js "my-site") |},
     [Fetched (Immediate.createProjectRequest sampleToken (js "my-site"));
      Fetched (Immediate.createDeploymentRequest sampleToken
                 (Immediate.deploymentPayload sampleDate (Str (js "my-site"))
                    (Str (js "prj_1")) (js "my-site")))]).
Proof.
  refine (immediate_handler_succeeds toLowerCaseAscii sampleToken
            (scripted [replyJson 200 sampleProject;
                       replyJson 200 (sampleDeployment "ERROR" (Str (js "Build failed")))])
            sampleDate (postRequest (Str (js "My Site")) undefined)
            {| projectName := Str (js "My Site"); siteName := undefined |}
            77%N (js "y Site") [] sampleProject
            (sampleDeployment "ERROR" (Str (js "Build failed")))
            _ _ _ _ _ _).
  - reflexivity.
  - reflexivity.
  - reflexivity.
  - reflexivity.
  - eexists. repeat split.
  - eexists. repeat split.
Defined.

(** X19. The polling variant: on a [POST] request that passes the
    checks, when the platform creates the project and accepts the
    deployment and the wait for the deployment returns a URL, the
    answer is [200 {success: true, ...}] with that URL, the ids of the
    project and of the deployment, the sanitized name as [projectName]
    and as [siteName] the one of the request or, when that is missing
    or empty, the sanitized name.  The wait is run with the id and the
    url of the new deployment and 30 attempts. *)
Theorem polling_handler_succeeds :
  forall (toLowerCase : jsstring -> jsstring) (token : JsVal)
         (platform : Platform) (date : jsstring)
         (req : Req) (fields : ReqBody) (c : codeunit) (s : jsstring)
         (t t' : Trace) (project deployment : Obj) (finalUrl : jsstring),
    let clean := cleanProjectName toLowerCase (c :: s) in
    let site := orString (siteName fields) clean in
    let create := Polling.createProjectRequest token clean in
    let deploy := Polling.createDeploymentRequest token
                    (Polling.deploymentPayload date (name project)
                       (id project) site) in
    method req = js "POST" ->
    truthy token = true ->
    includes (orString (contentTypeHeader req) []) (js "multipart/form-data") = true ->
    body req = Some fields ->
    projectName fields = Str (c :: s) ->
    reports (platform t create) project ->
    reports (platform (t ++ [Fetched create]) deploy) deployment ->
    Polling.waitForDeploymentReady token platform (id deployment) (url deployment)
      30 (t ++ [Fetched create; Fetched deploy]) = (Normal finalUrl, t') ->
    Polling.handler toLowerCase token platform date req t
    = ({| statusCode := 200;
          resBody := Success finalUrl (id project) (id deployment) clean site |},
       t').
Proof.
  intros lc token platform date req fields c s t t' project deployment finalUrl
         clean site create deploy Hm Htok Hct Hbody Hname Hcreate Hdeploy Hwait.
  rewrite polling_handler_post by assumption.
  unfold Polling.handlerTry.
  rewrite Htok, Hct. cbn [negb]. cbv iota zeta.
  unfold bind at 1, lift at 1. rewrite Hbody. cbn [destructure].
  rewrite Hname. cbv zeta.
  fold clean. fold site. unfold bind at 1.
  rewrite (polling_createOrGetProject_reports token platform clean t project Hcreate).
  fold create. unfold bind at 1 2, lift at 1 2. cbn [prop]. unfold bind at 1.
  rewrite (polling_createDeployment_reports token platform date project site
             _ deployment Hdeploy).
  fold deploy. rewrite <- app_assoc. cbn [app].
  unfold bind at 1 2 3, lift at 1 2 3. cbn [prop]. unfold bind at 1.
  rewrite Hwait. reflexivity.
Qed.

Lemma polling_handler_succeeds_witness :
  fst (Polling.handler toLowerCaseAscii sampleToken samplePlatform sampleDate
         (postRequest (Str (js "My Site")) (Str (js "Cool"))) [])
  = {| statusCode := 200;
       resBody := Success (js "https://my-site-abc.vercel.app")
                    (Str (js "prj_1")) (Str (js "dep1"))
                    (js "my-site") (js "Cool") |}.
Proof.
  refine (f_equal fst
            (polling_handler_succeeds toLowerCaseAscii sampleToken
               samplePlatform sampleDate
               (postRequest (Str (js "My Site")) (Str (js "Cool")))
               {| projectName := Str (js "My Site"); siteName := Str (js "Cool") |}
               77%N (js "y Site") [] _ sampleProject
               (sampleDeployment "QUEUED" undefined)
               (js "https://my-site-abc.vercel.app")
               _ _ _ _ _ _ _ _)).
  - reflexivity.
  - reflexivity.
  - reflexivity.
  - reflexivity.
  - reflexivity.
  - eexists. repeat split.
  - eexists. repeat split.
  - vm_compute. reflexivity.
Defined.

(** ** Deployment submission: failures, and the page *)

(** X20. When the platform answers the deployment [POST] with a status
    that is not 2xx, [createDeployment] throws after this one call.
    The polling variant reports the status and the text of the
    response behind ["Deployment failed: Deployment creation failed: "];
    the other variant reports the text only, behind
    ["Deployment failed: "]. *)
Theorem createDeployment_refused :
  forall (token : JsVal) (platform : Platform) (date : jsstring)
         (project : Obj) (siteName : jsstring) (t : Trace) (r : Response),
    ok r = false ->
    (let request := Polling.createDeploymentRequest token
                      (Polling.deploymentPayload date (name project)
                         (id project) siteName) in
     platform t request = Normal r ->
     Polling.createDeployment token platform date (JsonObj project) siteName t
     = (Throw (mkError (js "Deployment failed: "
                          ++ js "Deployment creation failed: "
                          ++ decimal (status r) ++ js " - " ++ text r)),
        t ++ [Fetched request]))
    /\
    (let request := Immediate.createDeploymentRequest token
                      (Immediate.deploymentPayload date (name project)
                         (id project) siteName) in
     platform t request = Normal r ->
     Immediate.createDeployment token platform date (JsonObj project) siteName t
     = (Throw (mkError (js "Deployment failed: " ++ text r)),
        t ++ [Fetched request])).
Proof.
  intros token platform date project siteName t r Hok.
  split; intros request Hr.
  - unfold Polling.createDeployment, tryCatch, bind, fetch, lift, throw.
    cbn [prop]. fold request. rewrite Hr, Hok. reflexivity.
  - unfold Immediate.createDeployment, bind, fetch, lift, throw.
    cbn [prop]. fold request. rewrite Hr, Hok. reflexivity.
Qed.

Lemma createDeployment_refused_witness :
  fst (Polling.createDeployment sampleToken (scripted [replyText 402 "pay"])
         sampleDate (JsonObj sampleProject) (js "Cool") [])
  = Throw (mkError (js "Deployment failed: Deployment creation failed: 402 - pay")).
Proof.
  refine (f_equal fst
            (proj1 (createDeployment_refused sampleToken
                      (scripted [replyText 402 "pay"]) sampleDate sampleProject
                      (js "Cool") []
                      {| status := 402; text := js "pay";
                         json := Throw (mkError (js "Unexpected token in JSON at position 0")) |}
                      _) _));
    reflexivity.
Defined.

(** X21. When the platform cannot be reached for the deployment [POST]
    ([fetch] rejects), the polling variant of [createDeployment] throws
    a new error with the message of the rejection behind
    ["Deployment failed: "], while the other variant, which has no
    [try], lets the rejection through as it is. *)
Theorem createDeployment_unreachable :
  forall (token : JsVal) (platform : Platform) (date : jsstring)
         (project : Obj) (siteName : jsstring) (t : Trace) (e : Error),
    (let request := Polling.createDeploymentRequest token
                      (Polling.deploymentPayload date (name project)
                         (id project) siteName) in
     platform t request = Throw e ->
     Polling.createDeployment token platform date (JsonObj project) siteName t
     = (Throw (mkError (js "Deployment failed: " ++ message e)),
        t ++ [Fetched request]))
    /\
    (let request := Immediate.createDeploymentRequest token
                      (Immediate.deploymentPayload date (name project)
                         (id project) siteName) in
     platform t request = Throw e ->
     Immediate.createDeployment token platform date (JsonObj project) siteName t
     = (Throw e, t ++ [Fetched request])).
Proof.
  intros token platform date project siteName t e.
  split; intros request Hr.
  - unfold Polling.createDeployment, tryCatch, bind, fetch, lift, throw.
    cbn [prop]. fold request. rewrite Hr. reflexivity.
  - unfold Immediate.createDeployment, bind, fetch, lift, throw.
    cbn [prop]. fold request. rewrite Hr. reflexivity.
Qed.

Lemma createDeployment_unreachable_witness :
  fst (Immediate.createDeployment sampleToken (scripted []) sampleDate
         (JsonObj sampleProject) (js "Cool") [])
  = Throw (mkError (js "fetch failed")).
Proof.
  refine (f_equal fst
            (proj2 (createDeployment_unreachable sampleToken (scripted [])
                      sampleDate sampleProject (js "Cool") []
                      (mkError (js "fetch failed"))) _)).
  reflexivity.
Defined.

Lemma startsWith_app (needle post : jsstring) :
  startsWith needle (needle ++ post) = true.
Proof.
  induction needle as [|c needle IH]; simpl; [reflexivity|].
  rewrite N.eqb_refl. exact IH.
Qed.

Lemma includes_here (needle post : jsstring) :
  includes (needle ++ post) needle = true.
Proof.
  pose proof (startsWith_app needle post) as H.
  destruct (needle ++ post); simpl; rewrite H; reflexivity.
Qed.

Lemma includes_later (pre s needle : jsstring) :
  includes s needle = true -> includes (pre ++ s) needle = true.
Proof.
  intros H. induction pre as [|c pre IH]; simpl; [exact H|].
  rewrite IH. apply orb_true_r.
Qed.

Ltac find_in_page :=
  repeat first [ apply includes_here | apply includes_later ].

(** X22. The page that is deployed holds the site name, the project
    name and the date exactly as they were given: each occurs in
    [htmlContent] code unit by code unit, nothing is escaped or cut.
    Both variants. *)
Theorem htmlContent_embeds_its_arguments :
  forall (date siteName : jsstring) (projectName : JsVal),
    includes (Polling.htmlContent date siteName projectName) siteName = true
    /\ includes (Polling.htmlContent date siteName projectName)
                (template projectName) = true
    /\ includes (Polling.htmlContent date siteName projectName) date = true
    /\ includes (Immediate.htmlContent date siteName projectName) siteName = true
    /\ includes (Immediate.htmlContent date siteName projectName)
                (template projectName) = true
    /\ includes (Immediate.htmlContent date siteName projectName) date = true.
Proof.
  intros date siteName projectName.
  unfold Polling.htmlContent, Immediate.htmlContent.
  repeat split; find_in_page.
Qed.
